(** * go-swagger: origin detection and the documentation handlers

    A shallow embedding of the Go package [swagger] (OkanUysal/go-swagger):
    the origin resolver ([detectHost], [detectScheme]), the configuration
    record, the swag integration ([SetupWithSwag], [LoadSwagDocs],
    [SetupFromDocs]), the typed publisher of swagger.go ([New], [Setup],
    [docHandler]) and the later [Setup] stub.

    Go strings are byte strings ([string]); Go maps are references, so the
    generic documents ([map[string]interface{}]) live in an explicit heap;
    the process environment and the router are explicit arguments. *)

From Stdlib Require Import ZArith String Ascii List Bool Lia.
From stdpp Require Import base gmap strings list fin_maps.

Local Open Scope Z_scope.
Local Open Scope string_scope.

(* ===================================================================== *)
(** ** The Go library functions the package calls                         *)
(* ===================================================================== *)

(** Package [strings]. *)
Module GoStrings.

(** [strings.HasSuffix]:
    [len(s) >= len(suffix) && s[len(s)-len(suffix):] == suffix]. *)
Definition HasSuffix (s suffix : string) : bool :=
  (String.length suffix <=? String.length s)%nat
  && String.eqb
       (substring (String.length s - String.length suffix)
                  (String.length suffix) s)
       suffix.

(** [strings.Index]: the byte offset of the first occurrence of [substr]
    in [s], or -1. *)
Fixpoint Index (s substr : string) {struct s} : Z :=
  if String.prefix substr s then 0
  else match s with
       | EmptyString => -1
       | String _ s' =>
           let i := Index s' substr in
           if (i <? 0)%Z then -1 else (i + 1)%Z
       end.

(** [strings.Contains]: [Index(s, substr) >= 0]. *)
Definition Contains (s substr : string) : bool := (0 <=? Index s substr)%Z.

(** [strings.Split] for a non-empty separator: the pieces of [s] between
    the successive non-overlapping occurrences of [sep].  [skip] counts
    the bytes of a separator occurrence still to be dropped and [cur]
    holds the bytes of the current piece, last byte first. *)
Fixpoint Split_from (sep : string) (skip : nat) (cur : list ascii)
         (s : string) {struct s} : list string :=
  match s with
  | EmptyString => [string_of_list_ascii (rev cur)]
  | String a s' =>
      match skip with
      | S k => Split_from sep k cur s'
      | O =>
          if String.prefix sep s
          then string_of_list_ascii (rev cur)
               :: Split_from sep (String.length sep - 1) [] s'
          else Split_from sep 0 (a :: cur) s'
      end
  end.

(** With the empty separator Go splits after each UTF-8 sequence; the
    package only ever splits on [":"], and the bytes are returned one by
    one here. *)
Definition Split (s sep : string) : list string :=
  match sep with
  | EmptyString =>
      List.map (fun a => String a EmptyString) (list_ascii_of_string s)
  | _ => Split_from sep 0 [] s
  end.

End GoStrings.

(** Package [os]: the process environment is a finite map from names to
    values; [os.Getenv] returns the empty string for an unset name. *)
Module GoOs.

Definition Environ := gmap string string.

Definition Getenv (env : gmap string string) (key : string) : string :=
  default "" (env !! key).

End GoOs.

(** Package [net/http]. *)
Module NetHttp.

(** [tls.ConnectionState]: [Request.TLS] is a pointer to it, nil on a
    plain connection.  Only its presence is ever inspected. *)
Record ConnectionState := { HandshakeComplete : bool }.

(** [http.Request], the fields the package reads. *)
Record Request := {
  Header : gmap string (list string);
  Host : string;
  TLS : option ConnectionState
}.

(** [Header.Get]: the first value stored under the key, or [""].  The
    keys used by the package are already in canonical form. *)
Definition Get (h : gmap string (list string)) (key : string) : string :=
  match h !! key with
  | Some (v :: _) => v
  | _ => ""
  end.

Definition StatusOK : Z := 200.
Definition StatusInternalServerError : Z := 500.

End NetHttp.

(** Package [gin]: the request context, the reply written by [c.JSON] and
    the routes of an engine, kept as the registration calls that succeeded,
    in order.  Whether gin takes a new route depends on the methods and
    paths registered before it; that decision is gin's own (its path
    normalisation and its radix tree) and is an argument of [GET]: [None]
    when the route is taken, the message of the panic when it is refused
    (a repeated path, a wildcard conflict).  A panic ends the call and the
    engine is not used after it. *)
Module Gin.

Record Context := { Request : NetHttp.Request }.

(** What [c.JSON(code, obj)] writes: the status, the JSON content type
    and the object that is serialised, as it is at the call. *)
Record Response (A : Type) := {
  Code : Z;
  ContentType : string;
  Obj : A
}.
Arguments Code {A} _.
Arguments ContentType {A} _.
Arguments Obj {A} _.

Definition JSON {A : Type} (code : Z) (obj : A) : Response A :=
  {| Code := code;
     ContentType := "application/json; charset=utf-8";
     Obj := obj |}.

Record RouteInfo (H : Type) := {
  Method : string;
  Path : string;
  HandlerFunc : H
}.
Arguments Method {H} _.
Arguments Path {H} _.
Arguments HandlerFunc {H} _.

(** The method and path of each registration, in order. *)
Definition registrations {H : Type} (router : list (RouteInfo H))
  : list (string * string) :=
  List.map (fun r => (Method r, Path r)) router.

End Gin.

(** Go errors carry a message; a panic aborts the call. *)
Definition error := string.

Inductive result (A : Type) : Type :=
| Done (a : A)
| Panic (msg : string).
Arguments Done {A} a.
Arguments Panic {A} msg.

Definition bind {A B : Type} (r : result A) (k : A -> result B) : result B :=
  match r with
  | Done a => k a
  | Panic msg => Panic msg
  end.

Notation "x <~ r ;; k" := (bind r (fun x => k))
  (at level 100, r at next level, right associativity).

Definition nilDereference : string :=
  "runtime error: invalid memory address or nil pointer dereference".

(** Reading a field through a pointer: a nil pointer panics. *)
Definition deref {A : Type} (p : option A) : result A :=
  match p with
  | Some a => Done a
  | None => Panic nilDereference
  end.

(** [router.GET(relativePath, handler)]: the route is added when gin takes
    it, and the call panics with gin's message when gin refuses it. *)
Definition GET {H : Type}
           (gin : list (string * string) -> string -> string -> option string)
           (router : list (Gin.RouteInfo H))
           (relativePath : string) (handler : H)
  : result (list (Gin.RouteInfo H)) :=
  match gin (Gin.registrations router) "GET" relativePath with
  | Some msg => Panic msg
  | None =>
      Done (router ++ [ {| Gin.Method := "GET"; Gin.Path := relativePath;
                           Gin.HandlerFunc := handler |} ])%list
  end.

(* ===================================================================== *)
(** ** Package swagger: data                                              *)
(* ===================================================================== *)

(** The dynamic values an [interface{}] of the package holds.  A
    [map[string]interface{}] is a reference into the heap; slices are never
    written by the package and are kept by value; a [float64] is carried as
    its IEEE-754 bit pattern; [VOpaque] is a value of any other dynamic
    type, named by that type. *)
#[warnings="-register-all"]
Inductive val : Type :=
| VNil
| VBool (b : bool)
| VFloat64 (bits : Z)
| VString (s : string)
| VSlice (vs : list val)
| VStrings (ss : list string)
| VMap (l : positive)
| VOpaque (ty : string).

(** A map assertion [v.(map[string]interface{})]. *)
Definition assertMap (v : val) : option positive :=
  match v with
  | VMap l => Some l
  | _ => None
  end.

(** [make(map[string]interface{})]: a new, empty map at an unused address. *)
Definition makeMap (h : gmap positive (gmap string val))
  : positive * gmap positive (gmap string val) :=
  let l := fresh (dom h) in (l, <[l := ∅]> h).

(** [m[k] = v] on the map at address [l]. *)
Definition mapAssign (l : positive) (k : string) (v : val)
           (h : gmap positive (gmap string val))
  : gmap positive (gmap string val) :=
  alter (insert k v) l h.

(** The entries of the map at [l]; a nil map has none. *)
Definition mapOf (h : gmap positive (gmap string val)) (l : positive)
  : gmap string val :=
  default ∅ (h !! l).

(** config.go: [Config].  A nil slice and an empty slice are both []. *)
Record Config := {
  Title : string;
  Description : string;
  Version : string;
  Host : string;
  BasePath : string;
  Schemes : list string;
  AutoDetectHost : bool;
  Enabled : bool;
  UIPath : string;
  JSONPath : string;
  BearerAuth : bool;
  ContactName : string;
  ContactEmail : string;
  ContactURL : string;
  LicenseName : string;
  LicenseURL : string
}.

Definition NewConfig : Config :=
  {| Title := "API"; Description := "API Documentation"; Version := "1.0.0";
     Host := ""; BasePath := "/"; Schemes := [];
     AutoDetectHost := true; Enabled := true;
     UIPath := "/swagger"; JSONPath := "/swagger.json";
     BearerAuth := false;
     ContactName := ""; ContactEmail := ""; ContactURL := "";
     LicenseName := ""; LicenseURL := "" |}.

Definition DefaultConfig : Config :=
  {| Title := ""; Description := ""; Version := "";
     Host := ""; BasePath := ""; Schemes := [];
     AutoDetectHost := true; Enabled := true;
     UIPath := "/swagger"; JSONPath := "/swagger.json";
     BearerAuth := false;
     ContactName := ""; ContactEmail := ""; ContactURL := "";
     LicenseName := ""; LicenseURL := "" |}.

(** The setters write one field of the receiver and return it. *)
Definition WithHost (c : Config) (host : string) : Config :=
  {| Title := Title c; Description := Description c; Version := Version c;
     Host := host; BasePath := BasePath c; Schemes := Schemes c;
     AutoDetectHost := AutoDetectHost c; Enabled := Enabled c;
     UIPath := UIPath c; JSONPath := JSONPath c; BearerAuth := BearerAuth c;
     ContactName := ContactName c; ContactEmail := ContactEmail c;
     ContactURL := ContactURL c;
     LicenseName := LicenseName c; LicenseURL := LicenseURL c |}.

Definition WithSchemes (c : Config) (schemes : list string) : Config :=
  {| Title := Title c; Description := Description c; Version := Version c;
     Host := Host c; BasePath := BasePath c; Schemes := schemes;
     AutoDetectHost := AutoDetectHost c; Enabled := Enabled c;
     UIPath := UIPath c; JSONPath := JSONPath c; BearerAuth := BearerAuth c;
     ContactName := ContactName c; ContactEmail := ContactEmail c;
     ContactURL := ContactURL c;
     LicenseName := LicenseName c; LicenseURL := LicenseURL c |}.

Definition WithEnabled (c : Config) (enabled : bool) : Config :=
  {| Title := Title c; Description := Description c; Version := Version c;
     Host := Host c; BasePath := BasePath c; Schemes := Schemes c;
     AutoDetectHost := AutoDetectHost c; Enabled := enabled;
     UIPath := UIPath c; JSONPath := JSONPath c; BearerAuth := BearerAuth c;
     ContactName := ContactName c; ContactEmail := ContactEmail c;
     ContactURL := ContactURL c;
     LicenseName := LicenseName c; LicenseURL := LicenseURL c |}.

Definition WithAutoDetectHost (c : Config) (enabled : bool) : Config :=
  {| Title := Title c; Description := Description c; Version := Version c;
     Host := Host c; BasePath := BasePath c; Schemes := Schemes c;
     AutoDetectHost := enabled; Enabled := Enabled c;
     UIPath := UIPath c; JSONPath := JSONPath c; BearerAuth := BearerAuth c;
     ContactName := ContactName c; ContactEmail := ContactEmail c;
     ContactURL := ContactURL c;
     LicenseName := LicenseName c; LicenseURL := LicenseURL c |}.

(* ===================================================================== *)
(** ** The origin resolver (detectHost, detectScheme)                     *)
(* ===================================================================== *)

Definition nonEmpty (s : string) : bool := negb (String.eqb s "").

(** [detectHost]: the forwarded host, the request host (cut at its first
    colon when it ends in a standard port), four environment variables, and
    the local fallback. *)
Definition detectHost (c : Gin.Context) (env : gmap string string) : string :=
  let host := NetHttp.Get (NetHttp.Header (Gin.Request c)) "X-Forwarded-Host" in
  if nonEmpty host then host
  else
    let host := NetHttp.Host (Gin.Request c) in
    if nonEmpty host then
      if GoStrings.HasSuffix host ":80" || GoStrings.HasSuffix host ":443"
      then default "" (GoStrings.Split host ":" !! 0%nat)
      else host
    else
      let railwayURL := GoOs.Getenv env "RAILWAY_STATIC_URL" in
      if nonEmpty railwayURL then railwayURL
      else
        let railwayURL := GoOs.Getenv env "RAILWAY_PUBLIC_DOMAIN" in
        if nonEmpty railwayURL then railwayURL
        else
          let apiHost := GoOs.Getenv env "API_HOST" in
          if nonEmpty apiHost then apiHost
          else
            let apiURL := GoOs.Getenv env "API_URL" in
            if nonEmpty apiURL then apiURL
            else "localhost:8080".

(** [detectScheme]: TLS, the forwarded protocol, a Railway domain in the
    request host, the deployment stage, and the default. *)
Definition detectScheme (c : Gin.Context) (env : gmap string string) : string :=
  match NetHttp.TLS (Gin.Request c) with
  | Some _ => "https"
  | None =>
      let proto :=
        NetHttp.Get (NetHttp.Header (Gin.Request c)) "X-Forwarded-Proto" in
      if nonEmpty proto then proto
      else
        let host := NetHttp.Host (Gin.Request c) in
        if GoStrings.Contains host ".railway.app"
           || GoStrings.Contains host ".up.railway.app"
        then "https"
        else if String.eqb (GoOs.Getenv env "ENV") "production"
                || String.eqb (GoOs.Getenv env "ENV") "staging"
        then "https"
        else "http"
  end.

(** [isLocalhost]. *)
Definition isLocalhost (host : string) : bool :=
  GoStrings.Contains host "localhost" || GoStrings.Contains host "127.0.0.1".

(* ===================================================================== *)
(** ** swagger.go: the typed publisher                                    *)
(* ===================================================================== *)

Module Contact.
Record t := { Name : string; Email : string; URL : string }.
End Contact.

Module License.
Record t := { Name : string; URL : string }.
End License.

Module SecurityDefinition.
Record t := { Type_ : string; In_ : string; Name : string }.
End SecurityDefinition.

Module Info.
Record t := {
  Title : string;
  Description : string;
  Version : string;
  Contact : option Contact.t;
  License : option License.t
}.
End Info.

Module SwaggerSpec.
Record t := {
  Swagger : string;
  Info : Info.t;
  Host : string;
  BasePath : string;
  Schemes : list string;
  Paths : gmap string val;
  Definitions : gmap string val;
  SecurityDefinitions : gmap string SecurityDefinition.t
}.
End SwaggerSpec.

(** [Swagger]: the publisher owns its configuration and its document.  Both
    are held through pointers; a method that writes [s.spec] returns the
    publisher after the write. *)
Record Swagger := {
  config : Config;
  spec : SwaggerSpec.t
}.

(** The handlers a route can carry: the closure that [SetupWithSwag]
    builds over its [swagSpec] and [config], the method value
    [swagger.docHandler], and the UI handler of gin-swagger with its
    optional URL setting. *)
Inductive HandlerFunc : Type :=
| SwagDocHandler (swagSpec : val) (config : Config)
| DocHandler (s : Swagger)
| WrapHandler (url : option string).

Module swagger_go.

(** [New]. *)
Definition New (config : option Config) : Swagger :=
  let config := match config with
                | None => DefaultConfig
                | Some config => config
                end in
  let info :=
    {| Info.Title := Title config;
       Info.Description := Description config;
       Info.Version := Version config;
       Info.Contact :=
         if nonEmpty (ContactName config) || nonEmpty (ContactEmail config)
            || nonEmpty (ContactURL config)
         then Some {| Contact.Name := ContactName config;
                      Contact.Email := ContactEmail config;
                      Contact.URL := ContactURL config |}
         else None;
       Info.License :=
         if nonEmpty (LicenseName config)
         then Some {| License.Name := LicenseName config;
                      License.URL := LicenseURL config |}
         else None |} in
  {| config := config;
     spec :=
       {| SwaggerSpec.Swagger := "2.0";
          SwaggerSpec.Info := info;
          SwaggerSpec.Host := Host config;
          SwaggerSpec.BasePath := BasePath config;
          SwaggerSpec.Schemes := Schemes config;
          SwaggerSpec.Paths := ∅;
          SwaggerSpec.Definitions := ∅;
          SwaggerSpec.SecurityDefinitions :=
            if BearerAuth config
            then {[ "Bearer" :=
                      {| SecurityDefinition.Type_ := "apiKey";
                         SecurityDefinition.In_ := "header";
                         SecurityDefinition.Name := "Authorization" |} ]}
            else ∅ |} |}.

(** [Setup]: the publisher is built from [config] (where nil means the
    defaults), and then [config.Enabled] is read through the argument
    itself. *)
Definition Setup
           (gin : list (string * string) -> string -> string -> option string)
           (router : list (Gin.RouteInfo HandlerFunc))
           (config : option Config)
  : result (list (Gin.RouteInfo HandlerFunc)) :=
  let swagger := New config in
  cfg <~ deref config ;;
  if negb (Enabled cfg) then Done router
  else
    router <~ GET gin router (JSONPath cfg) (DocHandler swagger) ;;
    let url := JSONPath cfg in
    GET gin router (UIPath cfg ++ "/*any") (WrapHandler (Some url)).

(** The two field writes [s.spec.Host = h] and [s.spec.Schemes = ss]. *)
Definition setHost (sp : SwaggerSpec.t) (h : string) : SwaggerSpec.t :=
  {| SwaggerSpec.Swagger := SwaggerSpec.Swagger sp;
     SwaggerSpec.Info := SwaggerSpec.Info sp;
     SwaggerSpec.Host := h;
     SwaggerSpec.BasePath := SwaggerSpec.BasePath sp;
     SwaggerSpec.Schemes := SwaggerSpec.Schemes sp;
     SwaggerSpec.Paths := SwaggerSpec.Paths sp;
     SwaggerSpec.Definitions := SwaggerSpec.Definitions sp;
     SwaggerSpec.SecurityDefinitions := SwaggerSpec.SecurityDefinitions sp |}.

Definition setSchemes (sp : SwaggerSpec.t) (ss : list string)
  : SwaggerSpec.t :=
  {| SwaggerSpec.Swagger := SwaggerSpec.Swagger sp;
     SwaggerSpec.Info := SwaggerSpec.Info sp;
     SwaggerSpec.Host := SwaggerSpec.Host sp;
     SwaggerSpec.BasePath := SwaggerSpec.BasePath sp;
     SwaggerSpec.Schemes := ss;
     SwaggerSpec.Paths := SwaggerSpec.Paths sp;
     SwaggerSpec.Definitions := SwaggerSpec.Definitions sp;
     SwaggerSpec.SecurityDefinitions := SwaggerSpec.SecurityDefinitions sp |}.

(** [docHandler]: writes the host and the schemes into [s.spec] itself
    and serialises it.  Returns the publisher as the request leaves it,
    and the reply. *)
Definition docHandler (s : Swagger) (c : Gin.Context)
           (env : gmap string string)
  : Swagger * Gin.Response SwaggerSpec.t :=
  let sp :=
    if AutoDetectHost (config s) then
      let sp := setHost (spec s) (detectHost c env) in
      setSchemes sp [detectScheme c env]
    else if nonEmpty (Host (config s)) then
      let sp := setHost (spec s) (Host (config s)) in
      if (0 <? length (Schemes (config s)))%nat
      then setSchemes sp (Schemes (config s))
      else setSchemes sp [detectScheme c env]
    else spec s in
  ({| config := config s; spec := sp |}, Gin.JSON NetHttp.StatusOK sp).

(** [GetSpec]. *)
Definition GetSpec (s : Swagger) : SwaggerSpec.t := spec s.

End swagger_go.

(* ===================================================================== *)
(** ** swag_integration.go: the generic publisher                         *)
(* ===================================================================== *)

(** The state the integration touches: the package variable [SwagSpec] and
    the heap of generic maps. *)
Record World := {
  SwagSpec : val;
  Heap : gmap positive (gmap string val)
}.

Module swag_integration.

(** The handler that [SetupWithSwag] registers on the JSON route, a
    closure over [swagSpec] and [config]. *)
Definition serveSwagDoc (swagSpec : val) (config : Config)
           (c : Gin.Context) (env : gmap string string)
           (h : gmap positive (gmap string val))
  : Gin.Response (gmap string val) * gmap positive (gmap string val) :=
  match assertMap swagSpec with
  | None =>
      (Gin.JSON NetHttp.StatusInternalServerError
                {[ "error" := VString "Invalid swagger spec" ]}, h)
  | Some specMap =>
      let '(dynamicSpec, h) := makeMap h in
      let h :=
        map_fold (fun k v h => mapAssign dynamicSpec k v h) h
                 (mapOf h specMap) in
      let h :=
        if AutoDetectHost config then
          let h := mapAssign dynamicSpec "host"
                             (VString (detectHost c env)) h in
          mapAssign dynamicSpec "schemes"
                    (VStrings [detectScheme c env]) h
        else if nonEmpty (Host config) then
          let h := mapAssign dynamicSpec "host" (VString (Host config)) h in
          if (0 <? length (Schemes config))%nat
          then mapAssign dynamicSpec "schemes"
                         (VStrings (Schemes config)) h
          else mapAssign dynamicSpec "schemes"
                         (VStrings [detectScheme c env]) h
        else h in
      (Gin.JSON NetHttp.StatusOK (mapOf h dynamicSpec), h)
  end.

(** [SetupWithSwag]: the router as the call leaves it, or the panic of a
    refused registration, and the state, in which [SwagSpec] is written
    before the first registration. *)
Definition SetupWithSwag
           (gin : list (string * string) -> string -> string -> option string)
           (router : list (Gin.RouteInfo HandlerFunc))
           (swagSpec : val) (config : option Config) (w : World)
  : result (list (Gin.RouteInfo HandlerFunc)) * World :=
  let config := match config with
                | None => DefaultConfig
                | Some config => config
                end in
  if negb (Enabled config) then (Done router, w)
  else
    let w := {| SwagSpec := swagSpec; Heap := Heap w |} in
    ((router <~ GET gin router (JSONPath config)
                    (SwagDocHandler swagSpec config) ;;
      let url := JSONPath config in
      GET gin router (UIPath config ++ "/*any") (WrapHandler (Some url))),
     w).

(** [LoadSwagDocs].  [Unmarshal] is [json.Unmarshal] into an
    [interface{}]: on well-formed text it gives the decoded value and the
    heap with the maps it allocated, on any other text an error. *)
Definition LoadSwagDocs
           (Unmarshal : string -> gmap positive (gmap string val) ->
                        (val * gmap positive (gmap string val)) + error)
           (docJSON : string) (w : World)
  : (val * option error) * World :=
  match Unmarshal docJSON (Heap w) with
  | inr err => ((VNil, Some err), w)
  | inl (spec, h) => ((spec, None), {| SwagSpec := SwagSpec w; Heap := h |})
  end.

(** A [swaggerInfo] argument either has a [ReadDoc] method or not. *)
Inductive SwaggerInfo : Type :=
| WithReadDoc (ReadDoc : string)
| WithoutReadDoc.

Definition ErrNotSupported : error := "feature not supported".

(** [SetupFromDocs]. *)
Definition SetupFromDocs
           (gin : list (string * string) -> string -> string -> option string)
           (Unmarshal : string -> gmap positive (gmap string val) ->
                        (val * gmap positive (gmap string val)) + error)
           (router : list (Gin.RouteInfo HandlerFunc))
           (swaggerInfo : SwaggerInfo) (config : option Config) (w : World)
  : result (list (Gin.RouteInfo HandlerFunc) * option error) * World :=
  let config := match config with
                | None => DefaultConfig
                | Some config => config
                end in
  match swaggerInfo with
  | WithoutReadDoc => (Done (router, Some ErrNotSupported), w)
  | WithReadDoc doc =>
      match LoadSwagDocs Unmarshal doc w with
      | ((_, Some err), w) => (Done (router, Some err), w)
      | ((swagSpec, None), w) =>
          let '(r, w) := SetupWithSwag gin router swagSpec (Some config) w in
          ((router <~ r ;; Done (router, None)), w)
      end
  end.

End swag_integration.

(** The later revision of the integration, whose [Setup] only mounts the
    UI. *)
Module swag_integration_stub.

(** [Setup]. *)
Definition Setup
           (gin : list (string * string) -> string -> string -> option string)
           (router : list (Gin.RouteInfo HandlerFunc))
           (config : option Config)
  : result (list (Gin.RouteInfo HandlerFunc) * option error) :=
  let config := match config with
                | None => DefaultConfig
                | Some config => config
                end in
  router <~ GET gin router (UIPath config ++ "/*any") (WrapHandler None) ;;
  Done (router, None).

End swag_integration_stub.

(* ===================================================================== *)
(** ** Specification vocabulary and concrete requests                     *)
(* ===================================================================== *)

(** [sub] occurs in [s]. *)
Definition occursIn (sub s : string) : Prop :=
  exists a b : string, s = a +:+ sub +:+ b.

(** [s] ends in [suffix]. *)
Definition endsIn (s suffix : string) : Prop :=
  exists p : string, s = p +:+ suffix.

(** The host names a Railway deployment. *)
Definition railwayDomain (host : string) : Prop :=
  occursIn ".railway.app" host \/ occursIn ".up.railway.app" host.

(** What a request carries: the first [X-Forwarded-Host] value, the first
    [X-Forwarded-Proto] value, and its own host. *)
Definition forwardedHost (c : Gin.Context) : string :=
  NetHttp.Get (NetHttp.Header (Gin.Request c)) "X-Forwarded-Host".

Definition forwardedProto (c : Gin.Context) : string :=
  NetHttp.Get (NetHttp.Header (Gin.Request c)) "X-Forwarded-Proto".

Definition requestHost (c : Gin.Context) : string :=
  NetHttp.Host (Gin.Request c).

(** A request on a plain connection with the given host and headers. *)
Definition plainRequest (host : string) (headers : gmap string (list string))
  : Gin.Context :=
  {| Gin.Request :=
       {| NetHttp.Header := headers; NetHttp.Host := host;
          NetHttp.TLS := None |} |}.

(** The requests of swagger_test.go and some more. *)
Definition reqPort443 : Gin.Context := plainRequest "api.example.com:443" ∅.
Definition reqIPv6 : Gin.Context := plainRequest "[::1]:443" ∅.
Definition reqRailwayHost : Gin.Context := plainRequest "api.railway.app" ∅.
Definition reqLocal : Gin.Context := plainRequest "localhost:8080" ∅.
Definition reqForwarded : Gin.Context :=
  plainRequest "internal:8080" {[ "X-Forwarded-Host" := ["api.railway.app"] ]}.
Definition reqNoHost : Gin.Context := plainRequest "" ∅.
Definition reqForwardedProto : Gin.Context :=
  plainRequest "api.railway.app" {[ "X-Forwarded-Proto" := ["http"] ]}.
Definition reqTLS : Gin.Context :=
  {| Gin.Request :=
       {| NetHttp.Header := {[ "X-Forwarded-Proto" := ["http"] ]};
          NetHttp.Host := "localhost:8080";
          NetHttp.TLS := Some {| NetHttp.HandshakeComplete := true |} |} |}.

Definition envApiHost : gmap string string :=
  {[ "API_HOST" := "api.example.com"; "API_URL" := "other.example.com" ]}.
Definition envStaging : gmap string string := {[ "ENV" := "staging" ]}.
Definition envRailway : gmap string string :=
  {[ "RAILWAY_STATIC_URL" := "myapi.up.railway.app" ]}.

(** The view of a generic document that one request is answered with:
    the entries of the held map, with the host and the schemes the
    configuration asks for. *)
Definition dynamicSpecOf (config : Config) (c : Gin.Context)
           (env : gmap string string) (specMap : gmap string val)
  : gmap string val :=
  if AutoDetectHost config then
    <["schemes" := VStrings [detectScheme c env]]>
      (<["host" := VString (detectHost c env)]> specMap)
  else if nonEmpty (Host config) then
    <["schemes" := VStrings (if (0 <? length (Schemes config))%nat
                             then Schemes config
                             else [detectScheme c env])]>
      (<["host" := VString (Host config)]> specMap)
  else specMap.

(** A generated document held at address 1, as [LoadSwagDocs] leaves it. *)
Definition docHeap : gmap positive (gmap string val) :=
  {[ 1%positive :=
       {[ "swagger" := VString "2.0";
          "host" := VString "localhost:8080";
          "basePath" := VString "/api";
          "schemes" := VSlice [VString "http"; VString "https"] ]} ]}.

Definition docSpec : val := VMap 1%positive.

(** A configuration with a manual host and no manual schemes, and the
    configurations of the examples with the service switched off. *)
Definition manualConfig : Config :=
  WithHost (WithAutoDetectHost DefaultConfig false) "docs.example.com".

Definition disabledConfig : Config := WithEnabled DefaultConfig false.

Definition emptyWorld : World := {| SwagSpec := VNil; Heap := ∅ |}.

(** The route of the documentation UI under the default path, as the stub
    mounts it. *)
Definition stubUIRoute : Gin.RouteInfo HandlerFunc :=
  {| Gin.Method := "GET"; Gin.Path := "/swagger/*any";
     Gin.HandlerFunc := WrapHandler None |}.

(** Package [encoding/json], as far as it decides whether
    [json.Unmarshal] into an [interface{}] fails: the byte scanner that
    validates the text, and the float64 range of the number literals. *)
Module GoJSON.

Definition isSpace (c : ascii) : bool :=
  Ascii.eqb c " " || Ascii.eqb c "009" || Ascii.eqb c "013"
  || Ascii.eqb c "010".

Definition isDigit (c : ascii) : bool :=
  (48 <=? nat_of_ascii c)%nat && (nat_of_ascii c <=? 57)%nat.

Definition isDigit19 (c : ascii) : bool :=
  (49 <=? nat_of_ascii c)%nat && (nat_of_ascii c <=? 57)%nat.

Definition isHex (c : ascii) : bool :=
  isDigit c
  || ((97 <=? nat_of_ascii c)%nat && (nat_of_ascii c <=? 102)%nat)
  || ((65 <=? nat_of_ascii c)%nat && (nat_of_ascii c <=? 70)%nat).

(** What the innermost open object or array expects next. *)
Inductive parseKind : Type :=
| parseObjectKey
| parseObjectValue
| parseArrayValue.

(** The step functions of the scanner.  [stateInStringEscU n] is inside a
    [\u] escape with [n] hexadecimal digits still to come after the next
    one; [stateLiteral rest] is inside [true], [false] or [null] with
    [rest] still to come. *)
Inductive state : Type :=
| stateBeginValue
| stateBeginValueOrEmpty
| stateBeginStringOrEmpty
| stateBeginString
| stateEndValue
| stateEndTop
| stateInString
| stateInStringEsc
| stateInStringEscU (n : nat)
| stateNeg
| state1
| state0
| stateDot
| stateDot0
| stateE
| stateESign
| stateE0
| stateLiteral (rest : string)
| stateError.

(** The scanner: its step and its parse stack, innermost first. *)
Record scanner := {
  step : state;
  parseState : list parseKind
}.

Definition setStep (s : scanner) (st : state) : scanner :=
  {| step := st; parseState := parseState s |}.

Definition maxNestingDepth : nat := 10000.

(** [pushParseState]: with a limit, a stack longer than the limit is an
    error. *)
Definition pushParseState (limit : option nat) (s : scanner)
           (newParseState : parseKind) (successState : state) : scanner :=
  let stack := newParseState :: parseState s in
  if match limit with
     | Some n => (List.length stack <=? n)%nat
     | None => true
     end
  then {| step := successState; parseState := stack |}
  else {| step := stateError; parseState := stack |}.

Definition popParseState (s : scanner) : scanner :=
  match parseState s with
  | [] => setStep s stateError
  | _ :: rest =>
      {| step := match rest with
                 | [] => stateEndTop
                 | _ => stateEndValue
                 end;
         parseState := rest |}
  end.

Definition stepEndTop (s : scanner) (c : ascii) : scanner :=
  if isSpace c then setStep s stateEndTop else setStep s stateError.

Definition stepEndValue (s : scanner) (c : ascii) : scanner :=
  match parseState s with
  | [] => stepEndTop s c
  | ps :: rest =>
      if isSpace c then setStep s stateEndValue
      else
        match ps with
        | parseObjectKey =>
            if Ascii.eqb c ":"
            then {| step := stateBeginValue;
                    parseState := parseObjectValue :: rest |}
            else setStep s stateError
        | parseObjectValue =>
            if Ascii.eqb c ","
            then {| step := stateBeginString;
                    parseState := parseObjectKey :: rest |}
            else if Ascii.eqb c "}" then popParseState s
            else setStep s stateError
        | parseArrayValue =>
            if Ascii.eqb c "," then setStep s stateBeginValue
            else if Ascii.eqb c "]" then popParseState s
            else setStep s stateError
        end
  end.

Definition stepBeginValue (limit : option nat) (s : scanner) (c : ascii)
  : scanner :=
  if isSpace c then s
  else if Ascii.eqb c "{"
  then pushParseState limit s parseObjectKey stateBeginStringOrEmpty
  else if Ascii.eqb c "["
  then pushParseState limit s parseArrayValue stateBeginValueOrEmpty
  else if Ascii.eqb c "034" then setStep s stateInString
  else if Ascii.eqb c "-" then setStep s stateNeg
  else if Ascii.eqb c "0" then setStep s state0
  else if Ascii.eqb c "t" then setStep s (stateLiteral "rue")
  else if Ascii.eqb c "f" then setStep s (stateLiteral "alse")
  else if Ascii.eqb c "n" then setStep s (stateLiteral "ull")
  else if isDigit19 c then setStep s state1
  else setStep s stateError.

Definition stepBeginString (s : scanner) (c : ascii) : scanner :=
  if isSpace c then s
  else if Ascii.eqb c "034" then setStep s stateInString
  else setStep s stateError.

Definition step0 (s : scanner) (c : ascii) : scanner :=
  if Ascii.eqb c "." then setStep s stateDot
  else if Ascii.eqb c "e" || Ascii.eqb c "E" then setStep s stateE
  else stepEndValue s c.

Definition stepESign (s : scanner) (c : ascii) : scanner :=
  if isDigit c then setStep s stateE0 else setStep s stateError.

(** One byte. *)
Definition scanStep (limit : option nat) (s : scanner) (c : ascii)
  : scanner :=
  match step s with
  | stateBeginValue => stepBeginValue limit s c
  | stateBeginValueOrEmpty =>
      if isSpace c then s
      else if Ascii.eqb c "]" then stepEndValue s c
      else stepBeginValue limit s c
  | stateBeginStringOrEmpty =>
      if isSpace c then s
      else if Ascii.eqb c "}" then
        match parseState s with
        | [] => setStep s stateError
        | _ :: rest =>
            stepEndValue {| step := step s;
                            parseState := parseObjectValue :: rest |} c
        end
      else stepBeginString s c
  | stateBeginString => stepBeginString s c
  | stateEndValue => stepEndValue s c
  | stateEndTop => stepEndTop s c
  | stateInString =>
      if Ascii.eqb c "034" then setStep s stateEndValue
      else if Ascii.eqb c "092" then setStep s stateInStringEsc
      else if (nat_of_ascii c <? 32)%nat then setStep s stateError
      else s
  | stateInStringEsc =>
      if Ascii.eqb c "b" || Ascii.eqb c "f" || Ascii.eqb c "n"
         || Ascii.eqb c "r" || Ascii.eqb c "t" || Ascii.eqb c "092"
         || Ascii.eqb c "/" || Ascii.eqb c "034"
      then setStep s stateInString
      else if Ascii.eqb c "u" then setStep s (stateInStringEscU 3)
      else setStep s stateError
  | stateInStringEscU n =>
      if isHex c
      then match n with
           | O => setStep s stateInString
           | S k => setStep s (stateInStringEscU k)
           end
      else setStep s stateError
  | stateNeg =>
      if Ascii.eqb c "0" then setStep s state0
      else if isDigit19 c then setStep s state1
      else setStep s stateError
  | state1 => if isDigit c then s else step0 s c
  | state0 => step0 s c
  | stateDot =>
      if isDigit c then setStep s stateDot0 else setStep s stateError
  | stateDot0 =>
      if isDigit c then s
      else if Ascii.eqb c "e" || Ascii.eqb c "E" then setStep s stateE
      else stepEndValue s c
  | stateE =>
      if Ascii.eqb c "+" || Ascii.eqb c "-" then setStep s stateESign
      else stepESign s c
  | stateESign => stepESign s c
  | stateE0 => if isDigit c then s else stepEndValue s c
  | stateLiteral rest =>
      match rest with
      | EmptyString => setStep s stateError
      | String x rest' =>
          if Ascii.eqb c x
          then match rest' with
               | EmptyString => setStep s stateEndValue
               | _ => setStep s (stateLiteral rest')
               end
          else setStep s stateError
      end
  | stateError => s
  end.

Definition reset : scanner := {| step := stateBeginValue; parseState := [] |}.

(** The scan of a whole text: every byte, then the blank that [eof] feeds,
    after which the top-level value must be complete. *)
Definition scanAll (limit : option nat) (data : string) : scanner :=
  fold_left (scanStep limit) (list_ascii_of_string data ++ [" "%char]) reset.

Definition accepted (s : scanner) : bool :=
  match step s with
  | stateEndTop => true
  | _ => false
  end.

(** [checkValid]: the scan with the nesting limit of the package. *)
Definition checkValid (data : string) : bool :=
  accepted (scanAll (Some maxNestingDepth) data).

Definition inNumber (st : state) : bool :=
  match st with
  | stateNeg | state1 | state0 | stateDot | stateDot0
  | stateE | stateESign | stateE0 => true
  | _ => false
  end.

(** The number literals of a text, in order: a byte belongs to a number
    exactly when the scanner is in a number state after it. *)
Definition numberLiterals (data : string) : list string :=
  let '(_, cur, done) :=
    fold_left
      (fun (acc : scanner * list ascii * list string) (c : ascii) =>
         let '(s, cur, done) := acc in
         let s' := scanStep None s c in
         if inNumber (step s') then (s', c :: cur, done)
         else
           (s', [],
            match cur with
            | [] => done
            | _ => (done ++ [string_of_list_ascii (rev cur)])%list
            end))
      (list_ascii_of_string data ++ [" "%char])
      (reset, [], []) in
  done.

(** The digits of a number literal: its decimal mantissa, the number of
    digits after the point, the sign of the exponent and the exponent,
    which [strconv] stops accumulating once it has reached 10000. *)
Record decimal := {
  mantissa : Z;
  fraction : Z;
  afterPoint : bool;
  inExponent : bool;
  negExponent : bool;
  exponent : Z
}.

Definition readDecimal (lit : string) : decimal :=
  fold_left
    (fun (d : decimal) (c : ascii) =>
       if isDigit c then
         let v := Z.of_nat (nat_of_ascii c - 48) in
         if inExponent d then
           {| mantissa := mantissa d; fraction := fraction d;
              afterPoint := afterPoint d; inExponent := true;
              negExponent := negExponent d;
              exponent := if (exponent d <? 10000)%Z
                          then (exponent d * 10 + v)%Z
                          else exponent d |}
         else
           {| mantissa := (mantissa d * 10 + v)%Z;
              fraction := if afterPoint d then (fraction d + 1)%Z
                          else fraction d;
              afterPoint := afterPoint d; inExponent := false;
              negExponent := negExponent d; exponent := exponent d |}
       else if Ascii.eqb c "." then
         {| mantissa := mantissa d; fraction := fraction d;
            afterPoint := true; inExponent := inExponent d;
            negExponent := negExponent d; exponent := exponent d |}
       else if Ascii.eqb c "e" || Ascii.eqb c "E" then
         {| mantissa := mantissa d; fraction := fraction d;
            afterPoint := afterPoint d; inExponent := true;
            negExponent := negExponent d; exponent := exponent d |}
       else if Ascii.eqb c "-" && inExponent d then
         {| mantissa := mantissa d; fraction := fraction d;
            afterPoint := afterPoint d; inExponent := true;
            negExponent := true; exponent := exponent d |}
       else d)
    (list_ascii_of_string lit)
    {| mantissa := 0; fraction := 0; afterPoint := false;
       inExponent := false; negExponent := false; exponent := 0 |}.

(** A literal is out of the float64 range when its magnitude rounds to
    infinity: it is at least 2^1024 - 2^970, half a unit in the last place
    above the largest float64.  That is [strconv.ParseFloat]'s answer for
    a literal whose digits fit its decimal buffer of 800 digits; for a
    longer literal, where the buffer truncates, its answer is taken as
    given ([long]). *)
Definition float64Overflows (long : string -> bool) (lit : string) : bool :=
  if (String.length lit <=? 800)%nat then
    let d := readDecimal lit in
    let e := ((if negExponent d then - exponent d else exponent d)
              - fraction d)%Z in
    let bound := (2 ^ 1024 - 2 ^ 970)%Z in
    (0 <? mantissa d)%Z
    && (if (0 <=? e)%Z
        then (bound <=? mantissa d * 10 ^ e)%Z
        else (bound * 10 ^ (- e) <=? mantissa d)%Z)
  else long lit.

(** The errors.  The text of a syntax error names the offending byte and
    its offset; only its kind is kept. *)
Definition SyntaxError : error := "json: syntax error".

Definition UnmarshalTypeError (lit : string) : error :=
  "json: cannot unmarshal number " +:+ lit
  +:+ " into Go value of type float64".

(** Whether [Unmarshal] into an [interface{}] fails, and how: a text that
    [checkValid] refuses is a syntax error; otherwise the first number
    literal out of range is a type error; otherwise there is none. *)
Definition unmarshalError (long : string -> bool) (data : string)
  : option error :=
  if negb (checkValid data) then Some SyntaxError
  else
    match List.find (float64Overflows long) (numberLiterals data) with
    | Some lit => Some (UnmarshalTypeError lit)
    | None => None
    end.

(** [Unmarshal] into an [interface{}].  [decode] is the value built for a
    text that is accepted, with the maps allocated for its objects; it is
    consulted for no other text. *)
Definition Unmarshal
           (long : string -> bool)
           (decode : string -> gmap positive (gmap string val) ->
                     val * gmap positive (gmap string val))
           (data : string) (h : gmap positive (gmap string val))
  : (val * gmap positive (gmap string val)) + error :=
  match unmarshalError long data with
  | Some err => inr err
  | None => inl (decode data h)
  end.

End GoJSON.

(** Well-formed JSON text: the grammar of JSON over bytes, which is the
    one the scanner follows, at any depth of nesting.  As in the scanner,
    the bytes of a string are not required to be valid UTF-8. *)
Definition wellFormedJSON (data : string) : bool :=
  GoJSON.accepted (GoJSON.scanAll None data).

(** A router that refuses a route only when the same method and path are
    registered already, with gin's message for it.  It stands for gin in
    the examples, which register on tables where gin takes the routes. *)
Definition refuseRepeated (registered : list (string * string))
           (method path : string) : option string :=
  if existsb (fun r => String.eqb r.1 method && String.eqb r.2 path)
             registered
  then Some ("handlers are already registered for path '" +:+ path +:+ "'")
  else None.

(** The double quote, and some JSON texts. *)
Definition quote : string := String "034"%char EmptyString.

Definition sampleDocJSON : string :=
  "{ " +:+ quote +:+ "swagger" +:+ quote +:+ ": " +:+ quote +:+ "2.0"
  +:+ quote +:+ ", " +:+ quote +:+ "paths" +:+ quote
  +:+ ": {}, " +:+ quote +:+ "x" +:+ quote
  +:+ ": [1, -0.5e+3, true, null, " +:+ quote +:+ "aé\n" +:+ quote
  +:+ "] }".

(** A decoder for the JSON texts [null], [true], [false] and [{}], enough
    to run [LoadSwagDocs] on both of its branches; and the value it builds
    for them, for use under [GoJSON.Unmarshal]. *)
Definition literalTexts : list string := ["null"; "true"; "false"; "{}"].

Definition literalUnmarshal (data : string)
           (h : gmap positive (gmap string val))
  : (val * gmap positive (gmap string val)) + error :=
  if String.eqb data "null" then inl (VNil, h)
  else if String.eqb data "true" then inl (VBool true, h)
  else if String.eqb data "false" then inl (VBool false, h)
  else if String.eqb data "{}" then
    let '(l, h) := makeMap h in inl (VMap l, h)
  else inr "invalid character looking for beginning of value".

Definition literalDecode (data : string)
           (h : gmap positive (gmap string val))
  : val * gmap positive (gmap string val) :=
  match literalUnmarshal data h with
  | inl r => r
  | inr _ => (VNil, h)
  end.

(* ===================================================================== *)
(** ** More of the package: the other setters, helpers and callers        *)
(* ===================================================================== *)

(** config.go: the remaining setters. *)
Definition WithTitle (c : Config) (title : string) : Config :=
  {| Title := title; Description := Description c; Version := Version c;
     Host := Host c; BasePath := BasePath c; Schemes := Schemes c;
     AutoDetectHost := AutoDetectHost c; Enabled := Enabled c;
     UIPath := UIPath c; JSONPath := JSONPath c;
     BearerAuth := BearerAuth c; ContactName := ContactName c;
     ContactEmail := ContactEmail c; ContactURL := ContactURL c;
     LicenseName := LicenseName c; LicenseURL := LicenseURL c |}.

Definition WithDescription (c : Config) (description : string) : Config :=
  {| Title := Title c; Description := description; Version := Version c;
     Host := Host c; BasePath := BasePath c; Schemes := Schemes c;
     AutoDetectHost := AutoDetectHost c; Enabled := Enabled c;
     UIPath := UIPath c; JSONPath := JSONPath c;
     BearerAuth := BearerAuth c; ContactName := ContactName c;
     ContactEmail := ContactEmail c; ContactURL := ContactURL c;
     LicenseName := LicenseName c; LicenseURL := LicenseURL c |}.

Definition WithVersion (c : Config) (version : string) : Config :=
  {| Title := Title c; Description := Description c; Version := version;
     Host := Host c; BasePath := BasePath c; Schemes := Schemes c;
     AutoDetectHost := AutoDetectHost c; Enabled := Enabled c;
     UIPath := UIPath c; JSONPath := JSONPath c;
     BearerAuth := BearerAuth c; ContactName := ContactName c;
     ContactEmail := ContactEmail c; ContactURL := ContactURL c;
     LicenseName := LicenseName c; LicenseURL := LicenseURL c |}.

Definition WithBasePath (c : Config) (basePath : string) : Config :=
  {| Title := Title c; Description := Description c; Version := Version c;
     Host := Host c; BasePath := basePath; Schemes := Schemes c;
     AutoDetectHost := AutoDetectHost c; Enabled := Enabled c;
     UIPath := UIPath c; JSONPath := JSONPath c;
     BearerAuth := BearerAuth c; ContactName := ContactName c;
     ContactEmail := ContactEmail c; ContactURL := ContactURL c;
     LicenseName := LicenseName c; LicenseURL := LicenseURL c |}.

Definition WithBearerAuth (c : Config) (enabled : bool) : Config :=
  {| Title := Title c; Description := Description c; Version := Version c;
     Host := Host c; BasePath := BasePath c; Schemes := Schemes c;
     AutoDetectHost := AutoDetectHost c; Enabled := Enabled c;
     UIPath := UIPath c; JSONPath := JSONPath c; BearerAuth := enabled;
     ContactName := ContactName c; ContactEmail := ContactEmail c;
     ContactURL := ContactURL c; LicenseName := LicenseName c;
     LicenseURL := LicenseURL c |}.

Definition WithContact (c : Config) (name : string) (email : string) (url : string) : Config :=
  {| Title := Title c; Description := Description c; Version := Version c;
     Host := Host c; BasePath := BasePath c; Schemes := Schemes c;
     AutoDetectHost := AutoDetectHost c; Enabled := Enabled c;
     UIPath := UIPath c; JSONPath := JSONPath c;
     BearerAuth := BearerAuth c; ContactName := name;
     ContactEmail := email; ContactURL := url;
     LicenseName := LicenseName c; LicenseURL := LicenseURL c |}.

Definition WithLicense (c : Config) (name : string) (url : string) : Config :=
  {| Title := Title c; Description := Description c; Version := Version c;
     Host := Host c; BasePath := BasePath c; Schemes := Schemes c;
     AutoDetectHost := AutoDetectHost c; Enabled := Enabled c;
     UIPath := UIPath c; JSONPath := JSONPath c;
     BearerAuth := BearerAuth c; ContactName := ContactName c;
     ContactEmail := ContactEmail c; ContactURL := ContactURL c;
     LicenseName := name; LicenseURL := url |}.

Definition WithUIPath (c : Config) (path : string) : Config :=
  {| Title := Title c; Description := Description c; Version := Version c;
     Host := Host c; BasePath := BasePath c; Schemes := Schemes c;
     AutoDetectHost := AutoDetectHost c; Enabled := Enabled c;
     UIPath := path; JSONPath := JSONPath c; BearerAuth := BearerAuth c;
     ContactName := ContactName c; ContactEmail := ContactEmail c;
     ContactURL := ContactURL c; LicenseName := LicenseName c;
     LicenseURL := LicenseURL c |}.

Definition WithJSONPath (c : Config) (path : string) : Config :=
  {| Title := Title c; Description := Description c; Version := Version c;
     Host := Host c; BasePath := BasePath c; Schemes := Schemes c;
     AutoDetectHost := AutoDetectHost c; Enabled := Enabled c;
     UIPath := UIPath c; JSONPath := path; BearerAuth := BearerAuth c;
     ContactName := ContactName c; ContactEmail := ContactEmail c;
     ContactURL := ContactURL c; LicenseName := LicenseName c;
     LicenseURL := LicenseURL c |}.

(** One call of a fluent chain [cfg.WithX(...).WithY(...)], and the chain
    itself, applied from left to right to the receiver. *)
Inductive ConfigCall : Type :=
| CallWithTitle (title : string)
| CallWithDescription (description : string)
| CallWithVersion (version : string)
| CallWithHost (host : string)
| CallWithBasePath (basePath : string)
| CallWithBearerAuth (enabled : bool)
| CallWithSchemes (schemes : list string)
| CallWithContact (name email url : string)
| CallWithLicense (name url : string)
| CallWithEnabled (enabled : bool)
| CallWithAutoDetectHost (enabled : bool)
| CallWithUIPath (path : string)
| CallWithJSONPath (path : string).

Definition callConfig (call : ConfigCall) (c : Config) : Config :=
  match call with
  | CallWithTitle title => WithTitle c title
  | CallWithDescription description => WithDescription c description
  | CallWithVersion version => WithVersion c version
  | CallWithHost host => WithHost c host
  | CallWithBasePath basePath => WithBasePath c basePath
  | CallWithBearerAuth enabled => WithBearerAuth c enabled
  | CallWithSchemes schemes => WithSchemes c schemes
  | CallWithContact name email url => WithContact c name email url
  | CallWithLicense name url => WithLicense c name url
  | CallWithEnabled enabled => WithEnabled c enabled
  | CallWithAutoDetectHost enabled => WithAutoDetectHost c enabled
  | CallWithUIPath path => WithUIPath c path
  | CallWithJSONPath path => WithJSONPath c path
  end.

Definition chainConfig (calls : list ConfigCall) (c : Config) : Config :=
  fold_left (fun c call => callConfig call c) calls c.

(** [getEnvWithDefault]. *)
Definition getEnvWithDefault (env : gmap string string)
           (key defaultValue : string) : string :=
  let value := GoOs.Getenv env key in
  if nonEmpty value then value else defaultValue.

(** swagger.go: [SetPaths] and [SetDefinitions] replace one field of the
    held document.  The map is stored as the caller passed it. *)
Definition SetPaths (s : Swagger) (paths : gmap string val) : Swagger :=
  {| config := config s;
     spec :=
       {| SwaggerSpec.Swagger := SwaggerSpec.Swagger (spec s);
          SwaggerSpec.Info := SwaggerSpec.Info (spec s);
          SwaggerSpec.Host := SwaggerSpec.Host (spec s);
          SwaggerSpec.BasePath := SwaggerSpec.BasePath (spec s);
          SwaggerSpec.Schemes := SwaggerSpec.Schemes (spec s);
          SwaggerSpec.Paths := paths;
          SwaggerSpec.Definitions := SwaggerSpec.Definitions (spec s);
          SwaggerSpec.SecurityDefinitions :=
            SwaggerSpec.SecurityDefinitions (spec s) |} |}.

Definition SetDefinitions (s : Swagger) (definitions : gmap string val)
  : Swagger :=
  {| config := config s;
     spec :=
       {| SwaggerSpec.Swagger := SwaggerSpec.Swagger (spec s);
          SwaggerSpec.Info := SwaggerSpec.Info (spec s);
          SwaggerSpec.Host := SwaggerSpec.Host (spec s);
          SwaggerSpec.BasePath := SwaggerSpec.BasePath (spec s);
          SwaggerSpec.Schemes := SwaggerSpec.Schemes (spec s);
          SwaggerSpec.Paths := SwaggerSpec.Paths (spec s);
          SwaggerSpec.Definitions := definitions;
          SwaggerSpec.SecurityDefinitions :=
            SwaggerSpec.SecurityDefinitions (spec s) |} |}.

(** A run of requests on the typed publisher, each with the environment
    it finds: the publisher as the last request leaves it. *)
Definition serveRequests (s : Swagger)
           (reqs : list (Gin.Context * gmap string string)) : Swagger :=
  fold_left (fun s r => (swagger_go.docHandler s r.1 r.2).1) reqs s.

(** A run of requests on the JSON route of [SetupWithSwag]: the heap as the
    last request leaves it. *)
Definition serveSwagDocs (swagSpec : val) (config : Config)
           (reqs : list (Gin.Context * gmap string string))
           (h : gmap positive (gmap string val))
  : gmap positive (gmap string val) :=
  fold_left
    (fun h r => (swag_integration.serveSwagDoc swagSpec config r.1 r.2 h).2)
    reqs h.

(** The method and path of each registered route, in registration order. *)
Definition routeTable (router : list (Gin.RouteInfo HandlerFunc))
  : list (string * string) :=
  List.map (fun r => (Gin.Method r, Gin.Path r)) router.

(** The outcome of a call, seen through [f]. *)
Definition mapResult {A B : Type} (f : A -> B) (r : result A) : result B :=
  match r with
  | Done a => Done (f a)
  | Panic msg => Panic msg
  end.

(** examples/railway/main.go: [getScheme]. *)
Definition getScheme (c : Gin.Context) : string :=
  match NetHttp.TLS (Gin.Request c) with
  | Some _ => "https"
  | None =>
      let proto :=
        NetHttp.Get (NetHttp.Header (Gin.Request c)) "X-Forwarded-Proto" in
      if nonEmpty proto then proto else "http"
  end.

(** examples/railway/main.go: the configuration [main] builds from the
    process environment, and its call of [Setup]. *)
Definition railwaySwaggerConfig (environ : gmap string string) : Config :=
  let env := GoOs.Getenv environ "ENV" in
  let swaggerEnabled := negb (String.eqb env "production") in
  WithContact
    (WithBearerAuth
       (WithEnabled
          (WithAutoDetectHost
             (WithBasePath
                (WithVersion
                   (WithDescription
                      (WithTitle NewConfig "Railway API")
                      "API deployed on Railway with automatic host detection")
                   "1.0.0")
                "/api/v1")
             true)
          swaggerEnabled)
       true)
    "API Team" "api@example.com" "https://example.com".

Definition railwaySetup
           (gin : list (string * string) -> string -> string -> option string)
           (router : list (Gin.RouteInfo HandlerFunc))
           (environ : gmap string string)
  : result (list (Gin.RouteInfo HandlerFunc)) :=
  swagger_go.Setup gin router (Some (railwaySwaggerConfig environ)).

(** The request [c] with the given values under [X-Forwarded-Host], one
    for each header line received. *)
Definition withForwardedHost (c : Gin.Context) (values : list string)
  : Gin.Context :=
  {| Gin.Request :=
       {| NetHttp.Header :=
            <["X-Forwarded-Host" := values]>
              (NetHttp.Header (Gin.Request c));
          NetHttp.Host := NetHttp.Host (Gin.Request c);
          NetHttp.TLS := NetHttp.TLS (Gin.Request c) |} |}.

(** Inputs for the examples below. *)
Definition reqColonPort : Gin.Context := plainRequest ":80" ∅.
Definition enabledWorldRoutes : list (Gin.RouteInfo HandlerFunc) :=
  [ {| Gin.Method := "GET"; Gin.Path := "/health";
       Gin.HandlerFunc := WrapHandler None |} ].
Definition envProduction : gmap string string := {[ "ENV" := "production" ]}.

(* ===================================================================== *)
(** ** Facts about the string functions                                   *)
(* ===================================================================== *)

Lemma nonEmpty_true (s : string) : nonEmpty s = true <-> s <> "".
Proof.
  unfold nonEmpty. rewrite negb_true_iff. apply String.eqb_neq.
Qed.

Lemma nonEmpty_false (s : string) : nonEmpty s = false <-> s = "".
Proof.
  unfold nonEmpty. rewrite negb_false_iff. apply String.eqb_eq.
Qed.

Lemma append_nil_l (s : string) : "" +:+ s = s.
Proof. reflexivity. Qed.

Lemma append_cons (x : ascii) (s t : string) :
  String x s +:+ t = String x (s +:+ t).
Proof. reflexivity. Qed.

Lemma append_empty_r (s : string) : s +:+ "" = s.
Proof.
  induction s as [|a s IH]; [reflexivity |].
  now rewrite append_cons, IH.
Qed.

Lemma append_assoc (a b c : string) : (a +:+ b) +:+ c = a +:+ (b +:+ c).
Proof.
  induction a as [|x a IH]; [reflexivity |].
  now rewrite !append_cons, IH.
Qed.

Lemma length_append (a b : string) :
  String.length (a +:+ b) = (String.length a + String.length b)%nat.
Proof.
  induction a as [|x a IH]; [reflexivity |].
  rewrite append_cons. simpl. now rewrite IH.
Qed.

Lemma prefix_append (p r : string) : String.prefix p (p +:+ r) = true.
Proof.
  induction p as [|x p IH].
  - rewrite append_nil_l. now destruct r.
  - rewrite append_cons. simpl.
    destruct (ascii_dec x x); [exact IH | congruence].
Qed.

Lemma prefix_inv (p s : string) :
  String.prefix p s = true -> exists r, s = p +:+ r.
Proof.
  revert s. induction p as [|x p IH]; intros s H.
  - exists s. reflexivity.
  - destruct s as [|y s]; simpl in H; [discriminate |].
    destruct (ascii_dec x y) as [->|]; [| discriminate].
    destruct (IH _ H) as [r ->]. exists r. reflexivity.
Qed.

Lemma Index_nil (sub : string) :
  GoStrings.Index "" sub = if String.prefix sub "" then 0%Z else (-1)%Z.
Proof. reflexivity. Qed.

Lemma Index_cons (x : ascii) (s sub : string) :
  GoStrings.Index (String x s) sub =
  if String.prefix sub (String x s) then 0%Z
  else if (GoStrings.Index s sub <? 0)%Z then (-1)%Z
       else (GoStrings.Index s sub + 1)%Z.
Proof. reflexivity. Qed.

Lemma Index_here (s sub : string) :
  String.prefix sub s = true -> GoStrings.Index s sub = 0%Z.
Proof.
  intros H. destruct s; [rewrite Index_nil | rewrite Index_cons]; now rewrite H.
Qed.

(** [Contains] decides occurrence. *)
Lemma Contains_occursIn (s sub : string) :
  GoStrings.Contains s sub = true <-> occursIn sub s.
Proof.
  unfold GoStrings.Contains, occursIn. rewrite Z.leb_le. split.
  - induction s as [|x s IH].
    + rewrite Index_nil. destruct (String.prefix sub "") eqn:E; [| lia].
      intros _. apply prefix_inv in E as [r E]. exists "", r. exact E.
    + rewrite Index_cons. destruct (String.prefix sub (String x s)) eqn:E.
      * intros _. apply prefix_inv in E as [r E]. exists "", r. exact E.
      * destruct (GoStrings.Index s sub <? 0)%Z eqn:L; [lia |].
        intros _. apply Z.ltb_ge in L.
        destruct (IH L) as (a & b & ->). exists (String x a), b. reflexivity.
  - intros (a & b & ->). induction a as [|x a IH].
    + rewrite append_nil_l, Index_here; [lia | apply prefix_append].
    + rewrite append_cons, Index_cons.
      destruct (String.prefix sub (String x (a +:+ sub +:+ b))); [lia |].
      destruct (GoStrings.Index (a +:+ sub +:+ b) sub <? 0)%Z eqn:L; [| lia].
      apply Z.ltb_lt in L. lia.
Qed.

Lemma Contains_false (s sub : string) :
  GoStrings.Contains s sub = false <-> ~ occursIn sub s.
Proof.
  rewrite <- Contains_occursIn.
  destruct (GoStrings.Contains s sub); intuition congruence.
Qed.

Lemma substring_whole (s : string) : substring 0 (String.length s) s = s.
Proof. induction s as [|x s IH]; simpl; [reflexivity | now rewrite IH]. Qed.

Lemma substring_append_r (p q : string) :
  substring (String.length p) (String.length q) (p +:+ q) = q.
Proof.
  induction p as [|x p IH].
  - rewrite append_nil_l. apply substring_whole.
  - rewrite append_cons. simpl. exact IH.
Qed.

Lemma substring_split (s : string) (n : nat) :
  (n <= String.length s)%nat ->
  s = substring 0 n s +:+ substring n (String.length s - n) s.
Proof.
  revert n. induction s as [|x s IH]; intros n Hn.
  - simpl in Hn. assert (n = 0%nat) as -> by lia. reflexivity.
  - destruct n as [|n].
    + simpl. now rewrite substring_whole.
    + simpl in Hn. simpl. rewrite append_cons. f_equal. apply IH. lia.
Qed.

(** [HasSuffix] decides whether the string ends in the suffix. *)
Lemma HasSuffix_endsIn (s suffix : string) :
  GoStrings.HasSuffix s suffix = true <-> endsIn s suffix.
Proof.
  unfold GoStrings.HasSuffix, endsIn.
  rewrite andb_true_iff, Nat.leb_le, String.eqb_eq. split.
  - intros [Hle Hsub].
    exists (substring 0 (String.length s - String.length suffix) s).
    set (n := (String.length s - String.length suffix)%nat) in *.
    rewrite (substring_split s n) at 1 by lia.
    f_equal. etransitivity; [| exact Hsub]. f_equal. unfold n. lia.
  - intros [p ->]. rewrite length_append. split; [lia |].
    replace (String.length p + String.length suffix - String.length suffix)%nat
      with (String.length p) by lia.
    apply substring_append_r.
Qed.

Lemma HasSuffix_false (s suffix : string) :
  GoStrings.HasSuffix s suffix = false <-> ~ endsIn s suffix.
Proof.
  rewrite <- HasSuffix_endsIn.
  destruct (GoStrings.HasSuffix s suffix); intuition congruence.
Qed.

Lemma string_of_list_ascii_snoc (l : list ascii) (x : ascii) (t : string) :
  string_of_list_ascii (l ++ [x]) +:+ t
  = string_of_list_ascii l +:+ String x t.
Proof.
  induction l as [|y l IH]; [reflexivity |].
  simpl. rewrite !append_cons. now rewrite IH.
Qed.

Lemma Split_from_cons (sep : string) (cur : list ascii) (x : ascii)
      (s : string) :
  GoStrings.Split_from sep 0 cur (String x s) =
  if String.prefix sep (String x s)
  then string_of_list_ascii (rev cur)
       :: GoStrings.Split_from sep (String.length sep - 1) [] s
  else GoStrings.Split_from sep 0 (x :: cur) s.
Proof. reflexivity. Qed.

Lemma prefix_colon (x : ascii) (s : string) :
  String.prefix ":" (String x s) = true <-> x = ":"%char.
Proof.
  change (String.prefix ":" (String x s))
    with (if ascii_dec ":"%char x then String.prefix "" s else false).
  destruct (ascii_dec ":"%char x) as [<-|Hne].
  - split; [reflexivity | now destruct s].
  - split; [discriminate | congruence].
Qed.

Lemma occursIn_cons_inv (sub : string) (x : ascii) (s : string) :
  ~ occursIn sub (String x s) -> ~ occursIn sub s.
Proof.
  intros H (a & b & ->). apply H. exists (String x a), b. reflexivity.
Qed.

Lemma no_colon_head (x : ascii) (s : string) :
  ~ occursIn ":" (String x s) -> String.prefix ":" (String x s) = false.
Proof.
  intros H. destruct (String.prefix ":" (String x s)) eqn:E; [| reflexivity].
  apply prefix_colon in E as ->. exfalso. apply H. exists "", s. reflexivity.
Qed.

(** The first piece of a split on [":"] when the text before the first
    colon is [p]. *)
Lemma Split_from_first_colon (p r : string) (cur : list ascii) :
  ~ occursIn ":" p ->
  GoStrings.Split_from ":" 0 cur (p +:+ ":" +:+ r) !! 0%nat
  = Some (string_of_list_ascii (rev cur) +:+ p).
Proof.
  revert cur. induction p as [|x p IH]; intros cur Hp.
  - rewrite append_nil_l, append_empty_r.
    change (":" +:+ r) with (String ":" r).
    rewrite Split_from_cons.
    replace (String.prefix ":" (String ":" r)) with true
      by (symmetry; now apply prefix_colon).
    reflexivity.
  - rewrite append_cons, Split_from_cons.
    assert (E : String.prefix ":" (String x (p +:+ ":" +:+ r)) = false).
    { destruct (String.prefix ":" (String x (p +:+ ":" +:+ r))) eqn:E;
        [| reflexivity].
      apply prefix_colon in E as ->. exfalso. apply Hp.
      exists "", p. reflexivity. }
    rewrite E, IH by (eapply occursIn_cons_inv; eassumption).
    simpl rev. now rewrite string_of_list_ascii_snoc.
Qed.

(** Without a colon the split has the whole string as its only piece. *)
Lemma Split_from_no_colon (s : string) (cur : list ascii) :
  ~ occursIn ":" s ->
  GoStrings.Split_from ":" 0 cur s = [string_of_list_ascii (rev cur) +:+ s].
Proof.
  revert cur. induction s as [|x s IH]; intros cur Hs.
  - simpl. now rewrite append_empty_r.
  - rewrite Split_from_cons, (no_colon_head _ _ Hs).
    rewrite IH by (eapply occursIn_cons_inv; eassumption).
    simpl rev. now rewrite string_of_list_ascii_snoc.
Qed.

(** The first piece of a split on [":"] is always a prefix of the text. *)
Lemma Split_from_first_prefix (s : string) (cur : list ascii) :
  exists p r : string,
    GoStrings.Split_from ":" 0 cur s !! 0%nat
    = Some (string_of_list_ascii (rev cur) +:+ p)
    /\ s = p +:+ r.
Proof.
  revert cur. induction s as [|x s IH]; intros cur.
  - exists "", "". simpl. now rewrite append_empty_r.
  - rewrite Split_from_cons.
    destruct (String.prefix ":" (String x s)) eqn:E.
    + exists "", (String x s). now rewrite append_empty_r.
    + destruct (IH (x :: cur)) as (p & r & Hp & ->).
      exists (String x p), r. split; [| reflexivity].
      rewrite Hp. simpl rev. now rewrite string_of_list_ascii_snoc.
Qed.

(** A split always has a first piece, so that indexing it at 0 is safe. *)
Lemma Split_from_first (sep : string) (skip : nat) (cur : list ascii)
      (s : string) :
  is_Some (GoStrings.Split_from sep skip cur s !! 0%nat).
Proof.
  revert skip cur. induction s as [|x s IH]; intros skip cur.
  - simpl. eauto.
  - destruct skip as [|k].
    + rewrite Split_from_cons.
      destruct (String.prefix sep (String x s)); [simpl; eauto | apply IH].
    + apply IH.
Qed.

Lemma occursIn_append (sub p r : string) :
  occursIn sub p -> occursIn sub (p +:+ r).
Proof.
  intros (a & b & ->). exists a, (b +:+ r).
  now rewrite !append_assoc.
Qed.

(* ===================================================================== *)
(** ** The origin resolver                                                *)
(* ===================================================================== *)

Section Resolver.

Variable c : Gin.Context.
Variable env : gmap string string.

Lemma detectHost_forwarded :
  forwardedHost c <> "" -> detectHost c env = forwardedHost c.
Proof.
  intros H. apply nonEmpty_true in H. unfold detectHost.
  fold (forwardedHost c). now rewrite H.
Qed.

Lemma detectHost_of_host :
  forwardedHost c = "" -> requestHost c <> "" ->
  detectHost c env =
  if GoStrings.HasSuffix (requestHost c) ":80"
     || GoStrings.HasSuffix (requestHost c) ":443"
  then default "" (GoStrings.Split (requestHost c) ":" !! 0%nat)
  else requestHost c.
Proof.
  intros Hf Hh. apply nonEmpty_false in Hf. apply nonEmpty_true in Hh.
  unfold detectHost. fold (forwardedHost c) (requestHost c).
  now rewrite Hf, Hh.
Qed.

Lemma detectHost_of_env :
  forwardedHost c = "" -> requestHost c = "" ->
  detectHost c env =
  if nonEmpty (GoOs.Getenv env "RAILWAY_STATIC_URL")
  then GoOs.Getenv env "RAILWAY_STATIC_URL"
  else if nonEmpty (GoOs.Getenv env "RAILWAY_PUBLIC_DOMAIN")
  then GoOs.Getenv env "RAILWAY_PUBLIC_DOMAIN"
  else if nonEmpty (GoOs.Getenv env "API_HOST")
  then GoOs.Getenv env "API_HOST"
  else if nonEmpty (GoOs.Getenv env "API_URL")
  then GoOs.Getenv env "API_URL"
  else "localhost:8080".
Proof.
  intros Hf Hh. apply nonEmpty_false in Hf. apply nonEmpty_false in Hh.
  unfold detectHost. fold (forwardedHost c) (requestHost c).
  now rewrite Hf, Hh.
Qed.

(** A request host that ends in a standard port and has no other colon
    loses exactly that port. *)
Lemma detectHost_strips_port (p port : string) :
  forwardedHost c = "" -> requestHost c <> "" ->
  port = ":80" \/ port = ":443" ->
  requestHost c = p +:+ port -> ~ occursIn ":" p ->
  detectHost c env = p.
Proof.
  intros Hf Hh Hport Hhost Hp.
  rewrite detectHost_of_host by assumption.
  assert (Hs : GoStrings.HasSuffix (requestHost c) ":80"
               || GoStrings.HasSuffix (requestHost c) ":443" = true).
  { apply orb_true_iff.
    destruct Hport as [-> | ->]; [left | right];
      apply HasSuffix_endsIn; now exists p. }
  rewrite Hs, Hhost. unfold GoStrings.Split.
  assert (Hsplit : forall r, GoStrings.Split_from ":" 0 [] (p +:+ ":" +:+ r)
                             !! 0%nat = Some p).
  { intros r. now rewrite Split_from_first_colon. }
  destruct Hport as [-> | ->].
  - change (p +:+ ":80") with (p +:+ ":" +:+ "80"). now rewrite Hsplit.
  - change (p +:+ ":443") with (p +:+ ":" +:+ "443"). now rewrite Hsplit.
Qed.

(** A request host that does not end in a standard port is returned as
    it is. *)
Lemma detectHost_keeps_host :
  forwardedHost c = "" -> requestHost c <> "" ->
  ~ endsIn (requestHost c) ":80" -> ~ endsIn (requestHost c) ":443" ->
  detectHost c env = requestHost c.
Proof.
  intros Hf Hh H80 H443. rewrite detectHost_of_host by assumption.
  apply HasSuffix_false in H80. apply HasSuffix_false in H443.
  now rewrite H80, H443.
Qed.

(** Whatever the request host is, what is returned for it is one of its
    prefixes. *)
Lemma detectHost_host_prefix :
  forwardedHost c = "" -> requestHost c <> "" ->
  exists r, requestHost c = detectHost c env +:+ r.
Proof.
  intros Hf Hh. rewrite detectHost_of_host by assumption.
  destruct (GoStrings.HasSuffix (requestHost c) ":80"
            || GoStrings.HasSuffix (requestHost c) ":443").
  - unfold GoStrings.Split.
    destruct (Split_from_first_prefix (requestHost c) []) as (p & r & Hp & Hr).
    rewrite Hp. simpl. exists r. exact Hr.
  - exists "". now rewrite append_empty_r.
Qed.

End Resolver.

(** With a forwarded host or a request host the environment is not
    consulted. *)
Lemma detectHost_ignores_env (c : Gin.Context) (env env' : gmap string string) :
  forwardedHost c <> "" \/ requestHost c <> "" ->
  detectHost c env' = detectHost c env.
Proof.
  intros H.
  destruct (String.eqb_spec (forwardedHost c) "") as [Hf | Hf].
  - destruct H as [H | H]; [congruence |].
    now rewrite !detectHost_of_host.
  - now rewrite !detectHost_forwarded.
Qed.

(** C2 (amended).  Host resolution, first non-empty source winning:
    (1) a non-empty [X-Forwarded-Host] value is returned, whatever else the
    request and the environment hold; (2) otherwise a non-empty request
    host decides alone: it is returned as it is unless it ends in [":80"]
    or [":443"], and with that port suffix removed when it ends in one and
    has no other colon; the environment is not consulted; (3) otherwise the
    first non-empty of RAILWAY_STATIC_URL, RAILWAY_PUBLIC_DOMAIN, API_HOST,
    API_URL, in that order; (4) otherwise ["localhost:8080"].  The function
    is total: there is no error outcome. *)
Theorem detectHost_precedence (c : Gin.Context) (env : gmap string string) :
  (forwardedHost c <> "" -> detectHost c env = forwardedHost c)
  /\ (forwardedHost c = "" -> requestHost c <> "" ->
      (~ endsIn (requestHost c) ":80" -> ~ endsIn (requestHost c) ":443" ->
       detectHost c env = requestHost c)
      /\ (forall p port : string,
             port = ":80" \/ port = ":443" ->
             requestHost c = p +:+ port -> ~ occursIn ":" p ->
             detectHost c env = p)
      /\ (forall env' : gmap string string,
             detectHost c env' = detectHost c env))
  /\ (forwardedHost c = "" -> requestHost c = "" ->
      (GoOs.Getenv env "RAILWAY_STATIC_URL" <> "" ->
       detectHost c env = GoOs.Getenv env "RAILWAY_STATIC_URL")
      /\ (GoOs.Getenv env "RAILWAY_STATIC_URL" = "" ->
          GoOs.Getenv env "RAILWAY_PUBLIC_DOMAIN" <> "" ->
          detectHost c env = GoOs.Getenv env "RAILWAY_PUBLIC_DOMAIN")
      /\ (GoOs.Getenv env "RAILWAY_STATIC_URL" = "" ->
          GoOs.Getenv env "RAILWAY_PUBLIC_DOMAIN" = "" ->
          GoOs.Getenv env "API_HOST" <> "" ->
          detectHost c env = GoOs.Getenv env "API_HOST")
      /\ (GoOs.Getenv env "RAILWAY_STATIC_URL" = "" ->
          GoOs.Getenv env "RAILWAY_PUBLIC_DOMAIN" = "" ->
          GoOs.Getenv env "API_HOST" = "" ->
          GoOs.Getenv env "API_URL" <> "" ->
          detectHost c env = GoOs.Getenv env "API_URL")
      /\ (GoOs.Getenv env "RAILWAY_STATIC_URL" = "" ->
          GoOs.Getenv env "RAILWAY_PUBLIC_DOMAIN" = "" ->
          GoOs.Getenv env "API_HOST" = "" ->
          GoOs.Getenv env "API_URL" = "" ->
          detectHost c env = "localhost:8080")).
Proof.
  split; [apply detectHost_forwarded |]. split.
  - intros Hf Hh. split; [now apply detectHost_keeps_host |].
    split.
    + intros p port Hport Hhost Hp.
      now apply (detectHost_strips_port c env p port).
    + intros env'. apply detectHost_ignores_env. now right.
  - intros Hf Hh. rewrite detectHost_of_env by assumption.
    repeat split.
    + intros H1. apply nonEmpty_true in H1. now rewrite H1.
    + intros H1 H2. apply nonEmpty_false in H1. apply nonEmpty_true in H2.
      now rewrite H1, H2.
    + intros H1 H2 H3. apply nonEmpty_false in H1, H2.
      apply nonEmpty_true in H3. now rewrite H1, H2, H3.
    + intros H1 H2 H3 H4. apply nonEmpty_false in H1, H2, H3.
      apply nonEmpty_true in H4. now rewrite H1, H2, H3, H4.
    + intros H1 H2 H3 H4. apply nonEmpty_false in H1, H2, H3, H4.
      now rewrite H1, H2, H3, H4.
Qed.

(** The precedence at the requests of the test suite: a forwarded host, a
    host with port 443, a host with another port, an environment with
    API_HOST and API_URL, and nothing at all. *)
Lemma detectHost_precedence_witness :
  detectHost reqForwarded envApiHost = "api.railway.app"
  /\ detectHost reqPort443 envApiHost = "api.example.com"
  /\ detectHost reqLocal envApiHost = "localhost:8080"
  /\ detectHost reqNoHost envApiHost = "api.example.com"
  /\ detectHost reqNoHost ∅ = "localhost:8080".
Proof.
  split.
  { destruct (detectHost_precedence reqForwarded envApiHost) as (H & _).
    apply H. vm_compute. discriminate. }
  split.
  { destruct (detectHost_precedence reqPort443 envApiHost) as (_ & H & _).
    destruct H as (_ & H & _);
      [reflexivity | vm_compute; discriminate |].
    apply (H "api.example.com" ":443");
      [now right | reflexivity | apply Contains_false; reflexivity]. }
  split.
  { destruct (detectHost_precedence reqLocal envApiHost) as (_ & H & _).
    destruct H as (H & _);
      [reflexivity | vm_compute; discriminate |].
    apply H; apply HasSuffix_false; reflexivity. }
  split.
  { destruct (detectHost_precedence reqNoHost envApiHost) as (_ & _ & H).
    destruct H as (_ & _ & H & _); [reflexivity | reflexivity |].
    apply H; [reflexivity | reflexivity | vm_compute; discriminate]. }
  { destruct (detectHost_precedence reqNoHost ∅) as (_ & _ & H).
    destruct H as (_ & _ & _ & _ & H); [reflexivity | reflexivity |].
    apply H; reflexivity. }
Defined.

(** C2 as stated fails at the request of the test "strips standard ports":
    without a forwarded host and with the non-empty request host
    ["api.example.com:443"], what is resolved is not the request's own host
    value but ["api.example.com"]. *)
Lemma detectHost_not_request_host :
  forwardedHost reqPort443 = ""
  /\ requestHost reqPort443 = "api.example.com:443"
  /\ detectHost reqPort443 ∅ = "api.example.com"
  /\ detectHost reqPort443 ∅ <> requestHost reqPort443.
Proof.
  repeat split; try reflexivity. vm_compute. discriminate.
Qed.

(** The cases of swagger_test.go. *)
Example TestDetectHost_forwarded :
  detectHost (plainRequest "" {[ "X-Forwarded-Host" := ["api.railway.app"] ]})
             ∅ = "api.railway.app".
Proof. reflexivity. Qed.

Example TestDetectHost_host :
  detectHost (plainRequest "api.example.com" ∅) ∅ = "api.example.com".
Proof. reflexivity. Qed.

Example TestDetectHost_strips_standard_ports :
  detectHost reqPort443 ∅ = "api.example.com".
Proof. reflexivity. Qed.

Example TestDetectHost_default_fallback :
  detectHost reqNoHost ∅ = "localhost:8080".
Proof. reflexivity. Qed.

Example TestDetectScheme_forwarded :
  detectScheme (plainRequest "" {[ "X-Forwarded-Proto" := ["https"] ]}) ∅
  = "https".
Proof. reflexivity. Qed.

Example TestDetectScheme_railway : detectScheme reqRailwayHost ∅ = "https".
Proof. reflexivity. Qed.

Example TestDetectScheme_default : detectScheme reqLocal ∅ = "http".
Proof. reflexivity. Qed.

Example TestIsLocalhost :
  isLocalhost "localhost:8080" = true /\ isLocalhost "127.0.0.1:8080" = true
  /\ isLocalhost "api.example.com" = false
  /\ isLocalhost "api.railway.app" = false.
Proof. repeat split; reflexivity. Qed.

(** C6.  For the bracketed IPv6 host ["[::1]:443"] without a forwarded
    host, [detectHost] returns ["["], the text before the first colon, and
    not ["[::1]"], the host without its port: cutting at the first colon
    removes more than the port suffix. *)
Theorem detectHost_ipv6_cut (env : gmap string string) :
  forwardedHost reqIPv6 = ""
  /\ requestHost reqIPv6 = "[::1]" +:+ ":443"
  /\ detectHost reqIPv6 env = "["
  /\ detectHost reqIPv6 env <> "[::1]".
Proof.
  assert (H : detectHost reqIPv6 env = "[").
  { rewrite (detectHost_ignores_env reqIPv6 ∅ env); [reflexivity |].
    right. vm_compute. discriminate. }
  repeat split; try reflexivity; try exact H.
  rewrite H. discriminate.
Qed.

Lemma railwayDomain_Contains (host : string) :
  GoStrings.Contains host ".railway.app"
  || GoStrings.Contains host ".up.railway.app" = true
  <-> railwayDomain host.
Proof.
  unfold railwayDomain.
  now rewrite orb_true_iff, !Contains_occursIn.
Qed.

Lemma detectScheme_plain (c : Gin.Context) (env : gmap string string) :
  NetHttp.TLS (Gin.Request c) = None -> forwardedProto c = "" ->
  detectScheme c env =
  if GoStrings.Contains (requestHost c) ".railway.app"
     || GoStrings.Contains (requestHost c) ".up.railway.app"
  then "https"
  else if String.eqb (GoOs.Getenv env "ENV") "production"
          || String.eqb (GoOs.Getenv env "ENV") "staging"
  then "https"
  else "http".
Proof.
  intros Htls Hp. apply nonEmpty_false in Hp.
  unfold detectScheme. fold (forwardedProto c) (requestHost c).
  now rewrite Htls, Hp.
Qed.

(** C3.  Scheme resolution, first match winning: (1) on a TLS connection
    ["https"]; (2) otherwise a non-empty [X-Forwarded-Proto] value, as it
    is; (3) otherwise ["https"] when the host of the request contains
    [".railway.app"] or [".up.railway.app"]; (4) otherwise ["https"] when
    ENV is ["production"] or ["staging"]; (5) otherwise ["http"]. *)
Theorem detectScheme_precedence (c : Gin.Context) (env : gmap string string) :
  (NetHttp.TLS (Gin.Request c) <> None -> detectScheme c env = "https")
  /\ (NetHttp.TLS (Gin.Request c) = None ->
      (forwardedProto c <> "" -> detectScheme c env = forwardedProto c)
      /\ (forwardedProto c = "" ->
          (railwayDomain (requestHost c) -> detectScheme c env = "https")
          /\ (~ railwayDomain (requestHost c) ->
              (GoOs.Getenv env "ENV" = "production"
               \/ GoOs.Getenv env "ENV" = "staging" ->
               detectScheme c env = "https")
              /\ (GoOs.Getenv env "ENV" <> "production" ->
                  GoOs.Getenv env "ENV" <> "staging" ->
                  detectScheme c env = "http")))).
Proof.
  split.
  { intros H. unfold detectScheme.
    destruct (NetHttp.TLS (Gin.Request c)); [reflexivity | congruence]. }
  intros Htls. split.
  { intros Hp. apply nonEmpty_true in Hp. unfold detectScheme.
    fold (forwardedProto c). now rewrite Htls, Hp. }
  intros Hp. rewrite detectScheme_plain by assumption. split.
  { intros Hr. apply railwayDomain_Contains in Hr. now rewrite Hr. }
  intros Hr.
  assert (Hc : GoStrings.Contains (requestHost c) ".railway.app"
               || GoStrings.Contains (requestHost c) ".up.railway.app"
               = false).
  { destruct (GoStrings.Contains (requestHost c) ".railway.app"
              || GoStrings.Contains (requestHost c) ".up.railway.app") eqn:E;
      [| reflexivity].
    exfalso. apply Hr. now apply railwayDomain_Contains. }
  rewrite Hc. split.
  - intros [He | He]; rewrite He; reflexivity.
  - intros H1 H2. apply String.eqb_neq in H1, H2. now rewrite H1, H2.
Qed.

(** The five cases at concrete requests: TLS with a forwarded ["http"], a
    forwarded ["http"] on a Railway host, a Railway host, a staging
    environment, and a local request. *)
Lemma detectScheme_precedence_witness :
  detectScheme reqTLS ∅ = "https"
  /\ detectScheme reqForwardedProto envStaging = "http"
  /\ detectScheme reqRailwayHost ∅ = "https"
  /\ detectScheme reqLocal envStaging = "https"
  /\ detectScheme reqLocal ∅ = "http".
Proof.
  split.
  { destruct (detectScheme_precedence reqTLS ∅) as (H & _).
    apply H. vm_compute. discriminate. }
  split.
  { destruct (detectScheme_precedence reqForwardedProto envStaging)
      as (_ & H).
    destruct H as (H & _); [reflexivity |].
    apply H. vm_compute. discriminate. }
  split.
  { destruct (detectScheme_precedence reqRailwayHost ∅) as (_ & H).
    destruct H as (_ & H); [reflexivity |].
    destruct H as (H & _); [reflexivity |].
    apply H. apply railwayDomain_Contains. reflexivity. }
  split.
  { destruct (detectScheme_precedence reqLocal envStaging) as (_ & H).
    destruct H as (_ & H); [reflexivity |].
    destruct H as (_ & H); [reflexivity |].
    destruct H as (H & _).
    - intros Hr. apply railwayDomain_Contains in Hr. vm_compute in Hr.
      discriminate.
    - apply H. right. reflexivity. }
  { destruct (detectScheme_precedence reqLocal ∅) as (_ & H).
    destruct H as (_ & H); [reflexivity |].
    destruct H as (_ & H); [reflexivity |].
    destruct H as (_ & H).
    - intros Hr. apply railwayDomain_Contains in Hr. vm_compute in Hr.
      discriminate.
    - apply H; vm_compute; discriminate. }
Defined.

(** C4 (amended).  On a plain connection without [X-Forwarded-Proto], the
    scheme is ["https"] whenever the request's own host contains a Railway
    domain; and so it is whenever the resolved host contains one and is
    taken from the request's own host (no [X-Forwarded-Host], a non-empty
    request host). *)
Theorem detectScheme_railway_host (c : Gin.Context)
        (env : gmap string string) :
  NetHttp.TLS (Gin.Request c) = None -> forwardedProto c = "" ->
  (railwayDomain (requestHost c) -> detectScheme c env = "https")
  /\ (forwardedHost c = "" -> requestHost c <> "" ->
      railwayDomain (detectHost c env) -> detectScheme c env = "https").
Proof.
  intros Htls Hp.
  assert (Hown : railwayDomain (requestHost c) -> detectScheme c env = "https").
  { intros Hr. rewrite detectScheme_plain by assumption.
    apply railwayDomain_Contains in Hr. now rewrite Hr. }
  split; [exact Hown |].
  intros Hf Hh Hr. apply Hown.
  destruct (detectHost_host_prefix c env Hf Hh) as [r ->].
  destruct Hr as [Hr | Hr]; [left | right]; now apply occursIn_append.
Qed.

Lemma detectScheme_railway_host_witness :
  detectScheme reqRailwayHost ∅ = "https".
Proof.
  destruct (detectScheme_railway_host reqRailwayHost ∅) as (H & _);
    [reflexivity | reflexivity |].
  apply H. apply railwayDomain_Contains. reflexivity.
Defined.

(** C4 as stated fails when the resolved host does not come from the
    request's own host.  With ["api.railway.app"] forwarded to a request
    for ["internal:8080"] on a plain connection without
    [X-Forwarded-Proto], the resolved host is a Railway domain and the
    scheme is ["http"]; the same happens when the Railway domain comes from
    RAILWAY_STATIC_URL. *)
Lemma detectScheme_ignores_resolved_host :
  (NetHttp.TLS (Gin.Request reqForwarded) = None
   /\ forwardedProto reqForwarded = ""
   /\ railwayDomain (detectHost reqForwarded ∅)
   /\ detectScheme reqForwarded ∅ = "http"
   /\ detectScheme reqForwarded ∅ <> "https")
  /\ (NetHttp.TLS (Gin.Request reqNoHost) = None
      /\ forwardedProto reqNoHost = ""
      /\ railwayDomain (detectHost reqNoHost envRailway)
      /\ detectScheme reqNoHost envRailway = "http"
      /\ detectScheme reqNoHost envRailway <> "https").
Proof.
  split.
  - repeat split; try reflexivity.
    + apply railwayDomain_Contains. reflexivity.
    + vm_compute. discriminate.
  - repeat split; try reflexivity.
    + apply railwayDomain_Contains. reflexivity.
    + vm_compute. discriminate.
Qed.

(* ===================================================================== *)
(** ** The generic publisher                                              *)
(* ===================================================================== *)

Lemma mapAssign_insert (d : positive) (k : string) (v : val)
      (m : gmap string val) (h : gmap positive (gmap string val)) :
  mapAssign d k v (<[d := m]> h) = <[d := <[k := v]> m]> h.
Proof. unfold mapAssign. apply alter_insert_eq. Qed.

(** The copy loop [for k, v := range specMap { dynamicSpec[k] = v }]. *)
Lemma copy_entries (d : positive) (m m0 : gmap string val)
      (h : gmap positive (gmap string val)) :
  h !! d = Some m0 ->
  map_fold (fun k v h => mapAssign d k v h) h m = <[d := m ∪ m0]> h.
Proof.
  intros Hd.
  apply (map_fold_weak_ind (fun r m => r = <[d := m ∪ m0]> h)).
  - rewrite (left_id_L ∅ (∪)). symmetry. now apply insert_id.
  - intros k v m' r Hk ->. rewrite mapAssign_insert.
    now rewrite insert_union_l.
Qed.

Lemma mapOf_insert_fresh (h : gmap positive (gmap string val))
      (l : positive) :
  mapOf (<[fresh (dom h) := ∅]> h) l = mapOf h l.
Proof.
  unfold mapOf. destruct (decide (fresh (dom h) = l)) as [<- | Hne].
  - rewrite lookup_insert_eq.
    assert (H : h !! fresh (dom h) = None).
    { apply not_elem_of_dom. apply is_fresh. }
    now rewrite H.
  - now rewrite lookup_insert_ne.
Qed.

Lemma mapOf_insert (h : gmap positive (gmap string val)) (l : positive)
      (m : gmap string val) :
  mapOf (<[l := m]> h) l = m.
Proof. unfold mapOf. now rewrite lookup_insert_eq. Qed.

(** A request for a held map: the reply is the per-request view, stored in
    a map of its own at a new address. *)
Lemma serveSwagDoc_map (l : positive) (cfg : Config) (c : Gin.Context)
      (env : gmap string string) (h : gmap positive (gmap string val)) :
  swag_integration.serveSwagDoc (VMap l) cfg c env h =
  (Gin.JSON NetHttp.StatusOK (dynamicSpecOf cfg c env (mapOf h l)),
   <[fresh (dom h) := dynamicSpecOf cfg c env (mapOf h l)]> h).
Proof.
  unfold swag_integration.serveSwagDoc, makeMap, dynamicSpecOf. simpl.
  rewrite mapOf_insert_fresh.
  rewrite (copy_entries _ _ ∅) by apply lookup_insert_eq.
  rewrite (right_id_L ∅ (∪)), insert_insert_eq.
  destruct (AutoDetectHost cfg).
  - now rewrite !mapAssign_insert, mapOf_insert.
  - destruct (nonEmpty (Host cfg)).
    + destruct (0 <? length (Schemes cfg))%nat;
        now rewrite !mapAssign_insert, mapOf_insert.
    + now rewrite mapOf_insert.
Qed.

(** Anything that is not a map is answered with the error object, and the
    heap is left as it was. *)
Lemma serveSwagDoc_not_map (swagSpec : val) (cfg : Config) (c : Gin.Context)
      (env : gmap string string) (h : gmap positive (gmap string val)) :
  (forall l, swagSpec <> VMap l) ->
  swag_integration.serveSwagDoc swagSpec cfg c env h =
  (Gin.JSON NetHttp.StatusInternalServerError
            {[ "error" := VString "Invalid swagger spec" ]}, h).
Proof.
  intros H. destruct swagSpec; try reflexivity. now destruct (H l).
Qed.

(** The frame of a request on the generic publisher: every map that was in
    the heap before the request is in it afterwards, with the same
    entries.  The held document is among them. *)
Lemma serveSwagDoc_frame (swagSpec : val) (cfg : Config) (c : Gin.Context)
      (env : gmap string string) (h : gmap positive (gmap string val))
      (l0 : positive) :
  l0 ∈ dom h ->
  (swag_integration.serveSwagDoc swagSpec cfg c env h).2 !! l0 = h !! l0.
Proof.
  intros Hl0.
  destruct swagSpec;
    try (rewrite serveSwagDoc_not_map by discriminate; reflexivity).
  rewrite serveSwagDoc_map. simpl.
  apply lookup_insert_ne. intros <-. now apply (is_fresh (dom h)).
Qed.

Lemma dynamicSpecOf_other (cfg : Config) (c : Gin.Context)
      (env : gmap string string) (m : gmap string val) (k : string) :
  k <> "host" -> k <> "schemes" -> dynamicSpecOf cfg c env m !! k = m !! k.
Proof.
  intros Hh Hs. unfold dynamicSpecOf.
  destruct (AutoDetectHost cfg); [| destruct (nonEmpty (Host cfg))];
    try reflexivity;
    rewrite !lookup_insert_ne by congruence; reflexivity.
Qed.

(** C9.  A request on the JSON route of [SetupWithSwag]: when the held
    document is not a [map[string]interface{}], the reply is status 500
    with the JSON object [{"error": "Invalid swagger spec"}], no host or
    scheme is written, and the heap is exactly as before, so that the next
    request is judged on its own; when the held document is such a map,
    the reply is status 200 with JSON content type and the document: every
    entry other than the host and the schemes is the held one (and all of
    them are when the configuration asks for no rewriting), and every map
    of the heap is as before. *)
Theorem serveSwagDoc_outcome (swagSpec : val) (cfg : Config)
        (c : Gin.Context) (env : gmap string string)
        (h : gmap positive (gmap string val)) :
  ((forall l, swagSpec <> VMap l) ->
   swag_integration.serveSwagDoc swagSpec cfg c env h =
   ({| Gin.Code := 500;
       Gin.ContentType := "application/json; charset=utf-8";
       Gin.Obj := {[ "error" := VString "Invalid swagger spec" ]} |}, h))
  /\ (forall l, swagSpec = VMap l ->
      let r := (swag_integration.serveSwagDoc swagSpec cfg c env h).1 in
      let h' := (swag_integration.serveSwagDoc swagSpec cfg c env h).2 in
      Gin.Code r = 200
      /\ Gin.ContentType r = "application/json; charset=utf-8"
      /\ (forall k, k <> "host" -> k <> "schemes" ->
                    Gin.Obj r !! k = mapOf h l !! k)
      /\ (AutoDetectHost cfg = false -> Host cfg = "" ->
          Gin.Obj r = mapOf h l)
      /\ (forall l0, l0 ∈ dom h -> h' !! l0 = h !! l0)).
Proof.
  split.
  - intros H. now rewrite serveSwagDoc_not_map.
  - intros l ->. cbv zeta. rewrite serveSwagDoc_map.
    split; [reflexivity |]. split; [reflexivity |].
    split; [| split].
    + intros k Hh Hs. simpl. now apply dynamicSpecOf_other.
    + intros Ha Hhost. simpl.
      unfold dynamicSpecOf. apply nonEmpty_false in Hhost.
      now rewrite Ha, Hhost.
    + intros l0 Hl0. rewrite <- (serveSwagDoc_map l cfg c env h).
      now apply serveSwagDoc_frame.
Qed.

(** The two outcomes on the sample heap: a string in the place of the
    document, and the generated document itself under a configuration
    that rewrites nothing. *)
Lemma serveSwagDoc_outcome_witness :
  (swag_integration.serveSwagDoc (VString "{}") DefaultConfig reqLocal ∅
                                 docHeap).2 = docHeap
  /\ Gin.Code (swag_integration.serveSwagDoc (VString "{}") DefaultConfig
                                             reqLocal ∅ docHeap).1 = 500
  /\ Gin.Code (swag_integration.serveSwagDoc
                 docSpec (WithAutoDetectHost DefaultConfig false)
                 reqLocal ∅ docHeap).1 = 200
  /\ Gin.Obj (swag_integration.serveSwagDoc
                docSpec (WithAutoDetectHost DefaultConfig false)
                reqLocal ∅ docHeap).1 = mapOf docHeap 1%positive.
Proof.
  destruct (serveSwagDoc_outcome (VString "{}") DefaultConfig reqLocal ∅
                                 docHeap) as (E & _).
  rewrite E by discriminate.
  destruct (serveSwagDoc_outcome docSpec (WithAutoDetectHost DefaultConfig
                                                             false)
                                 reqLocal ∅ docHeap) as (_ & H).
  destruct (H 1%positive eq_refl) as (Hc & _ & _ & Hobj & _).
  split; [reflexivity |]. split; [reflexivity |].
  split; [exact Hc | apply Hobj; reflexivity].
Defined.

(* ===================================================================== *)
(** ** Manual host and schemes against detection                          *)
(* ===================================================================== *)

Lemma dynamicSpecOf_auto (cfg : Config) (host : string)
      (schemes : list string) (c : Gin.Context) (env : gmap string string)
      (m : gmap string val) :
  AutoDetectHost cfg = true ->
  dynamicSpecOf (WithSchemes (WithHost cfg host) schemes) c env m
  = dynamicSpecOf cfg c env m.
Proof. intros H. unfold dynamicSpecOf. simpl. now rewrite H. Qed.

(** The publisher built from a configuration with another manual host and
    other manual schemes differs in those two document fields only. *)
Lemma New_manual_fields (cfg : Config) (host : string)
      (schemes : list string) :
  swagger_go.New (Some (WithSchemes (WithHost cfg host) schemes))
  = {| config := WithSchemes (WithHost cfg host) schemes;
       spec := swagger_go.setSchemes
                 (swagger_go.setHost (spec (swagger_go.New (Some cfg))) host)
                 schemes |}.
Proof. reflexivity. Qed.

(** C5.  With auto-detection enabled, what a request is answered with
    does not depend on the manual host and schemes of the configuration:
    for the generic handler the reply and the heap are the same under any
    other manual values, and for the typed handler the reply is the same
    under any other manual values in the configuration and in the held
    document.  With auto-detection disabled and a manual host set, the
    reply carries the manual host as it is, for every request and
    environment; and when no manual schemes are set its schemes are the
    one detected from the request. *)
Theorem manual_override (cfg : Config) (c : Gin.Context)
        (env : gmap string string) :
  (AutoDetectHost cfg = true ->
   forall (host : string) (schemes : list string),
     (forall swagSpec h,
         swag_integration.serveSwagDoc
           swagSpec (WithSchemes (WithHost cfg host) schemes) c env h
         = swag_integration.serveSwagDoc swagSpec cfg c env h)
     /\ (forall sp host' schemes',
            (swagger_go.docHandler
               {| config := WithSchemes (WithHost cfg host) schemes;
                  spec := swagger_go.setSchemes
                            (swagger_go.setHost sp host') schemes' |}
               c env).2
            = (swagger_go.docHandler {| config := cfg; spec := sp |}
                                     c env).2))
  /\ (AutoDetectHost cfg = false -> Host cfg <> "" ->
      (forall l h,
          Gin.Obj (swag_integration.serveSwagDoc (VMap l) cfg c env h).1
          !! "host" = Some (VString (Host cfg)))
      /\ (forall sp,
             SwaggerSpec.Host
               (Gin.Obj (swagger_go.docHandler {| config := cfg; spec := sp |}
                                               c env).2)
             = Host cfg)
      /\ (Schemes cfg = [] ->
          (forall l h,
              Gin.Obj (swag_integration.serveSwagDoc (VMap l) cfg c env h).1
              !! "schemes" = Some (VStrings [detectScheme c env]))
          /\ (forall sp,
                 SwaggerSpec.Schemes
                   (Gin.Obj (swagger_go.docHandler
                               {| config := cfg; spec := sp |} c env).2)
                 = [detectScheme c env]))).
Proof.
  split.
  - intros Ha host schemes. split.
    + intros swagSpec h. destruct swagSpec; try reflexivity.
      rewrite !serveSwagDoc_map. now rewrite dynamicSpecOf_auto.
    + intros sp host' schemes'. unfold swagger_go.docHandler. simpl.
      now rewrite Ha.
  - intros Ha Hh. apply nonEmpty_true in Hh. split; [| split].
    + intros l h. rewrite serveSwagDoc_map. simpl. unfold dynamicSpecOf.
      rewrite Ha, Hh.
      rewrite lookup_insert_ne by discriminate. apply lookup_insert_eq.
    + intros sp. unfold swagger_go.docHandler. simpl. rewrite Ha, Hh.
      now destruct (0 <? length (Schemes cfg))%nat.
    + intros Hs. split.
      * intros l h. rewrite serveSwagDoc_map. simpl. unfold dynamicSpecOf.
        rewrite Ha, Hh, Hs. apply lookup_insert_eq.
      * intros sp. unfold swagger_go.docHandler. simpl.
        now rewrite Ha, Hh, Hs.
Qed.

(** Both halves at concrete configurations: the defaults against the
    defaults with a manual host and scheme, and a manual host without
    manual schemes on the sample document. *)
Lemma manual_override_witness :
  swag_integration.serveSwagDoc
    docSpec (WithSchemes (WithHost DefaultConfig "docs.example.com")
                         ["https"]) reqForwarded ∅ docHeap
  = swag_integration.serveSwagDoc docSpec DefaultConfig reqForwarded ∅
                                  docHeap
  /\ Gin.Obj (swag_integration.serveSwagDoc docSpec manualConfig
                                            reqForwarded ∅ docHeap).1
     !! "host" = Some (VString "docs.example.com")
  /\ Gin.Obj (swag_integration.serveSwagDoc docSpec manualConfig
                                            reqForwarded ∅ docHeap).1
     !! "schemes" = Some (VStrings [detectScheme reqForwarded ∅]).
Proof.
  split.
  { destruct (manual_override DefaultConfig reqForwarded ∅) as (H & _).
    destruct (H eq_refl "docs.example.com" ["https"]) as (E & _).
    apply E. }
  destruct (manual_override manualConfig reqForwarded ∅) as (_ & H).
  destruct H as (Hhost & _ & Hschemes);
    [reflexivity | vm_compute; discriminate |].
  split; [apply Hhost |].
  destruct (Hschemes eq_refl) as (E & _). apply E.
Defined.

(* ===================================================================== *)
(** ** The typed publisher writes its own document                        *)
(* ===================================================================== *)

(** C1.  On the typed publisher the claim fails: [docHandler] writes the
    detected host and schemes into the held document itself.  The
    publisher built from [NewConfig] holds a document with an empty host
    and no schemes; after one request with ["api.railway.app"] forwarded
    its document has that host and the scheme ["http"], and a second
    request starts from that changed document. *)
Theorem docHandler_writes_held_spec :
  let s0 := swagger_go.New (Some NewConfig) in
  let s1 := (swagger_go.docHandler s0 reqForwarded ∅).1 in
  SwaggerSpec.Host (swagger_go.GetSpec s0) = ""
  /\ SwaggerSpec.Schemes (swagger_go.GetSpec s0) = []
  /\ SwaggerSpec.Host (swagger_go.GetSpec s1) = "api.railway.app"
  /\ SwaggerSpec.Schemes (swagger_go.GetSpec s1) = ["http"]
  /\ spec s1 <> spec s0.
Proof.
  cbv zeta. split; [reflexivity |]. split; [reflexivity |].
  split; [reflexivity |]. split; [reflexivity |].
  intros H. apply (f_equal SwaggerSpec.Host) in H.
  vm_compute in H. discriminate.
Qed.

(** The generic publisher keeps the claim: two successive requests on the
    same held map, with different forwarded hosts, both find the held map
    as it was before the first. *)
Lemma serveSwagDoc_twice (l : positive) (cfg : Config)
      (c1 c2 : Gin.Context) (env : gmap string string)
      (h : gmap positive (gmap string val)) :
  l ∈ dom h ->
  let h1 := (swag_integration.serveSwagDoc (VMap l) cfg c1 env h).2 in
  let h2 := (swag_integration.serveSwagDoc (VMap l) cfg c2 env h1).2 in
  mapOf h1 l = mapOf h l /\ mapOf h2 l = mapOf h l
  /\ Gin.Obj (swag_integration.serveSwagDoc (VMap l) cfg c2 env h1).1
     = Gin.Obj (swag_integration.serveSwagDoc (VMap l) cfg c2 env h).1.
Proof.
  intros Hl. cbv zeta.
  assert (E1 : mapOf (swag_integration.serveSwagDoc (VMap l) cfg c1 env h).2 l
               = mapOf h l).
  { unfold mapOf. now rewrite serveSwagDoc_frame. }
  split; [exact E1 |]. split.
  - etransitivity; [| exact E1].
    unfold mapOf. rewrite serveSwagDoc_frame; [reflexivity |].
    apply elem_of_dom. rewrite serveSwagDoc_frame by assumption.
    now apply elem_of_dom.
  - rewrite !(serveSwagDoc_map l cfg c2). now rewrite E1.
Qed.

(* ===================================================================== *)
(** ** Route registration                                                 *)
(* ===================================================================== *)

(** The entry points that look at [Enabled] register nothing for a
    disabled service, and ask gin for nothing. *)
Lemma SetupWithSwag_disabled
      (gin : list (string * string) -> string -> string -> option string)
      (router : list (Gin.RouteInfo HandlerFunc))
      (swagSpec : val) (cfg : Config) (w : World) :
  Enabled cfg = false ->
  swag_integration.SetupWithSwag gin router swagSpec (Some cfg) w
  = (Done router, w).
Proof.
  intros H. unfold swag_integration.SetupWithSwag. now rewrite H.
Qed.

Lemma SetupFromDocs_disabled
      (gin : list (string * string) -> string -> string -> option string)
      (Unmarshal : string -> gmap positive (gmap string val) ->
                   (val * gmap positive (gmap string val)) + error)
      (router : list (Gin.RouteInfo HandlerFunc))
      (info : swag_integration.SwaggerInfo) (cfg : Config) (w : World) :
  Enabled cfg = false ->
  exists err,
    (swag_integration.SetupFromDocs gin Unmarshal router info (Some cfg) w).1
    = Done (router, err).
Proof.
  intros H. unfold swag_integration.SetupFromDocs.
  destruct info as [doc |]; [| eauto].
  destruct (swag_integration.LoadSwagDocs Unmarshal doc w)
    as [[swagSpec [err |]] w']; [eauto |].
  rewrite SetupWithSwag_disabled by assumption. simpl. eauto.
Qed.

Lemma Setup_disabled
      (gin : list (string * string) -> string -> string -> option string)
      (router : list (Gin.RouteInfo HandlerFunc)) (cfg : Config) :
  Enabled cfg = false ->
  swagger_go.Setup gin router (Some cfg) = Done router.
Proof. intros H. unfold swagger_go.Setup. simpl. now rewrite H. Qed.

(** C7.  The [Setup] stub never reads [Enabled]: with the default
    configuration switched off it still registers the UI route
    ["/swagger/*any"], where the claim asks for no route at all.  On every
    router where gin takes that route the route is mounted, and where gin
    refuses it the stub panics with gin's message: in no case is the
    registration skipped. *)
Theorem stub_Setup_mounts_UI_when_disabled
        (gin : list (string * string) -> string -> string -> option string)
        (router : list (Gin.RouteInfo HandlerFunc)) :
  Enabled disabledConfig = false
  /\ (gin (Gin.registrations router) "GET" "/swagger/*any" = None ->
      swag_integration_stub.Setup gin router (Some disabledConfig)
      = Done ((router ++ [stubUIRoute])%list, None)
      /\ (router ++ [stubUIRoute])%list <> router)
  /\ (forall msg,
         gin (Gin.registrations router) "GET" "/swagger/*any" = Some msg ->
         swag_integration_stub.Setup gin router (Some disabledConfig)
         = Panic msg).
Proof.
  split; [reflexivity |]. split.
  - intros Hgin. split.
    + unfold swag_integration_stub.Setup, GET. cbv beta iota zeta.
      change (UIPath disabledConfig +:+ "/*any") with "/swagger/*any".
      now rewrite Hgin.
    + intros H. apply (f_equal (@List.length _)) in H.
      rewrite List.length_app in H. simpl in H. lia.
  - intros msg Hgin.
    unfold swag_integration_stub.Setup, GET. cbv beta iota zeta.
    change (UIPath disabledConfig +:+ "/*any") with "/swagger/*any".
    now rewrite Hgin.
Qed.

(** On a new router the disabled stub mounts the UI. *)
Lemma stub_Setup_mounts_UI_when_disabled_witness :
  swag_integration_stub.Setup refuseRepeated [] (Some disabledConfig)
  = Done ([stubUIRoute], None).
Proof.
  destruct (stub_Setup_mounts_UI_when_disabled refuseRepeated [])
    as (_ & H & _).
  destruct H as (E & _); [reflexivity |]. exact E.
Defined.

(* ===================================================================== *)
(** ** Loading a generated document                                       *)
(* ===================================================================== *)

Lemma pushParseState_limit (n : nat) (s : GoJSON.scanner)
      (ps : GoJSON.parseKind) (st : GoJSON.state) :
  GoJSON.step (GoJSON.pushParseState (Some n) s ps st) = GoJSON.stateError
  \/ GoJSON.pushParseState (Some n) s ps st
     = GoJSON.pushParseState None s ps st.
Proof.
  unfold GoJSON.pushParseState.
  destruct (List.length (ps :: GoJSON.parseState s) <=? n)%nat; auto.
Qed.

(** The nesting limit can only turn a step into an error. *)
Lemma scanStep_limit (n : nat) (s : GoJSON.scanner) (c : ascii) :
  GoJSON.step (GoJSON.scanStep (Some n) s c) = GoJSON.stateError
  \/ GoJSON.scanStep (Some n) s c = GoJSON.scanStep None s c.
Proof.
  unfold GoJSON.scanStep, GoJSON.stepBeginValue.
  destruct (GoJSON.step s); try (right; reflexivity);
    repeat match goal with
           | |- context [if ?b then _ else _] => destruct b
           end;
    auto using pushParseState_limit.
Qed.

Lemma scan_error_stays (limit : option nat) (cs : list ascii)
      (s : GoJSON.scanner) :
  GoJSON.step s = GoJSON.stateError ->
  GoJSON.step (fold_left (GoJSON.scanStep limit) cs s) = GoJSON.stateError.
Proof.
  revert s. induction cs as [|c cs IH]; intros s H; [exact H |].
  simpl. apply IH. unfold GoJSON.scanStep. now rewrite H.
Qed.

Lemma scan_limit (n : nat) (cs : list ascii) (s : GoJSON.scanner) :
  GoJSON.step (fold_left (GoJSON.scanStep (Some n)) cs s)
  = GoJSON.stateError
  \/ fold_left (GoJSON.scanStep (Some n)) cs s
     = fold_left (GoJSON.scanStep None) cs s.
Proof.
  revert s. induction cs as [|c cs IH]; intros s; [now right |].
  simpl. destruct (scanStep_limit n s c) as [E | E].
  - left. now apply scan_error_stays.
  - rewrite <- E. apply IH.
Qed.

(** What [checkValid] accepts is well-formed. *)
Lemma checkValid_wellFormed (data : string) :
  GoJSON.checkValid data = true -> wellFormedJSON data = true.
Proof.
  unfold GoJSON.checkValid, wellFormedJSON, GoJSON.scanAll.
  destruct (scan_limit GoJSON.maxNestingDepth
                       (list_ascii_of_string data ++ [" "%char])
                       GoJSON.reset) as [E | E].
  - unfold GoJSON.accepted. rewrite E. discriminate.
  - now rewrite E.
Qed.

Lemma find_none_iff {A : Type} (f : A -> bool) (l : list A) :
  List.find f l = None <-> Forall (fun x => f x = false) l.
Proof.
  induction l as [|x l IH]; simpl.
  - split; [constructor | reflexivity].
  - destruct (f x) eqn:E.
    + split; [discriminate |]. intros H. inversion H; congruence.
    + rewrite IH. split; [now constructor | intros H; now inversion H].
Qed.

(** C8 (amended).  [LoadSwagDocs] over [json.Unmarshal], for any values
    the decoder builds: on every text that is not well-formed JSON it
    returns a nil document and an error and leaves the state (the package
    variable [SwagSpec] and the heap) exactly as it was; it does the same
    on every text the decoder refuses, which includes well-formed texts (a
    number out of the float64 range, nesting deeper than the limit); on
    every other text, that is a valid text within the nesting limit whose
    numbers are all in range, it returns the decoded document and no
    error, and [SwagSpec] is as before. *)
Theorem LoadSwagDocs_outcome
        (long : string -> bool)
        (decode : string -> gmap positive (gmap string val) ->
                  val * gmap positive (gmap string val))
        (docJSON : string) (w : World) :
  (wellFormedJSON docJSON = false ->
   swag_integration.LoadSwagDocs (GoJSON.Unmarshal long decode) docJSON w
   = ((VNil, Some GoJSON.SyntaxError), w))
  /\ (forall err,
         GoJSON.unmarshalError long docJSON = Some err ->
         swag_integration.LoadSwagDocs (GoJSON.Unmarshal long decode)
                                       docJSON w
         = ((VNil, Some err), w))
  /\ (GoJSON.unmarshalError long docJSON = None ->
      swag_integration.LoadSwagDocs (GoJSON.Unmarshal long decode) docJSON w
      = (((decode docJSON (Heap w)).1, None),
         {| SwagSpec := SwagSpec w; Heap := (decode docJSON (Heap w)).2 |}))
  /\ (GoJSON.unmarshalError long docJSON = None
      <-> GoJSON.checkValid docJSON = true
          /\ Forall (fun lit => GoJSON.float64Overflows long lit = false)
                    (GoJSON.numberLiterals docJSON)).
Proof.
  assert (Herr : forall err,
             GoJSON.unmarshalError long docJSON = Some err ->
             swag_integration.LoadSwagDocs (GoJSON.Unmarshal long decode)
                                           docJSON w
             = ((VNil, Some err), w)).
  { intros err E.
    unfold swag_integration.LoadSwagDocs, GoJSON.Unmarshal. now rewrite E. }
  split; [| split; [exact Herr | split]].
  - intros Hwf. apply Herr. unfold GoJSON.unmarshalError.
    destruct (GoJSON.checkValid docJSON) eqn:Hv; [| reflexivity].
    apply checkValid_wellFormed in Hv. congruence.
  - intros E. unfold swag_integration.LoadSwagDocs, GoJSON.Unmarshal.
    rewrite E. now destruct (decode docJSON (Heap w)).
  - unfold GoJSON.unmarshalError.
    destruct (GoJSON.checkValid docJSON); simpl.
    + rewrite <- find_none_iff.
      destruct (List.find (GoJSON.float64Overflows long)
                          (GoJSON.numberLiterals docJSON));
        split; try discriminate; try tauto.
      intros [_ ?]. discriminate.
    + split; [discriminate | intros [? _]; discriminate].
Qed.

(** A broken text and the empty object, under the decoder of the literal
    texts. *)
Lemma LoadSwagDocs_outcome_witness :
  swag_integration.LoadSwagDocs
    (GoJSON.Unmarshal (fun _ => false) literalDecode) "{swagger:"
    {| SwagSpec := docSpec; Heap := docHeap |}
  = ((VNil, Some GoJSON.SyntaxError),
     {| SwagSpec := docSpec; Heap := docHeap |})
  /\ swag_integration.LoadSwagDocs
       (GoJSON.Unmarshal (fun _ => false) literalDecode) "{}" emptyWorld
     = (((literalDecode "{}" ∅).1, None),
        {| SwagSpec := VNil; Heap := (literalDecode "{}" ∅).2 |}).
Proof.
  split.
  - destruct (LoadSwagDocs_outcome
                (fun _ => false) literalDecode "{swagger:"
                {| SwagSpec := docSpec; Heap := docHeap |}) as (H & _).
    apply H. vm_compute. reflexivity.
  - destruct (LoadSwagDocs_outcome (fun _ => false) literalDecode "{}"
                                   emptyWorld)
      as (_ & _ & H & _).
    apply H. vm_compute. reflexivity.
Defined.

(** C8 as stated fails on the text [1e999]: it is well-formed JSON, a
    number, and [LoadSwagDocs] returns a nil document and the decoder's
    range error for it, not the parsed document. *)
Lemma LoadSwagDocs_rejects_well_formed_number :
  wellFormedJSON "1e999" = true
  /\ GoJSON.checkValid "1e999" = true
  /\ swag_integration.LoadSwagDocs
       (GoJSON.Unmarshal (fun _ => false) literalDecode) "1e999" emptyWorld
     = ((VNil,
         Some "json: cannot unmarshal number 1e999 into Go value of type float64"),
        emptyWorld).
Proof.
  split; [vm_compute; reflexivity |]. split; [vm_compute; reflexivity |].
  unfold swag_integration.LoadSwagDocs, GoJSON.Unmarshal.
  replace (GoJSON.unmarshalError (fun _ => false) "1e999")
    with (Some (GoJSON.UnmarshalTypeError "1e999"))
    by (vm_compute; reflexivity).
  reflexivity.
Qed.

(** The scanner and the range check at some texts. *)
Example checkValid_examples :
  List.map GoJSON.checkValid
           ["{swagger:"; ""; " "; "null"; " null "; "nul"; "01"; "-"; "1.";
            "1.e3"; "1e"; "1e+"; "[1,]"; "[]"; "{}"; "[1 2]"; "1 2"; "-0";
            "0.0e-0"; "[[]]"; "{}{}"; "+1"; ".5"; "[1,2]x"; "1e5 "; "{,}";
            "[,]"; "[ ]"; "{ }"; "[tru]"; "[true,false,null]"]
  = [false; false; false; true; true; false; false; false; false;
     false; false; false; false; true; true; false; false; true;
     true; true; false; false; false; false; true; false;
     false; true; true; false; true].
Proof. vm_compute. reflexivity. Qed.

Example checkValid_strings :
  GoJSON.checkValid sampleDocJSON = true
  /\ GoJSON.numberLiterals sampleDocJSON = ["1"; "-0.5e+3"]
  /\ GoJSON.checkValid ("{" +:+ quote +:+ "a" +:+ quote +:+ "}") = false
  /\ GoJSON.checkValid ("{" +:+ quote +:+ "a" +:+ quote +:+ ":1,}") = false
  /\ GoJSON.checkValid (quote +:+ "\u12G4" +:+ quote) = false
  /\ GoJSON.checkValid (quote +:+ "\u12a4\n" +:+ quote) = true
  /\ GoJSON.checkValid (quote +:+ "\x" +:+ quote) = false
  /\ GoJSON.checkValid (quote +:+ "tab" +:+ String "009"%char quote) = false
  /\ GoJSON.numberLiterals
       ("{" +:+ quote +:+ "1" +:+ quote +:+ ":" +:+ quote +:+ "2e5" +:+ quote
        +:+ "}") = [].
Proof. vm_compute. repeat split. Qed.

Example float64Overflows_examples :
  List.map (GoJSON.float64Overflows (fun _ => false))
           ["1e308"; "1.7976931348623157e308"; "1.7976931348623158e308";
            "1.7976931348623159e308"; "0e999"; "-1e999"; "1e-999";
            "0.1e310"; "10e-1"; "1e999"]
  = [false; false; false; true; false; true; false; true; false; true].
Proof. vm_compute. reflexivity. Qed.

(* ===================================================================== *)
(** ** A nil configuration                                                *)
(* ===================================================================== *)

Lemma SetupWithSwag_enabled
      (gin : list (string * string) -> string -> string -> option string)
      (router : list (Gin.RouteInfo HandlerFunc))
      (swagSpec : val) (cfg : Config) (w : World) :
  Enabled cfg = true ->
  gin (Gin.registrations router) "GET" (JSONPath cfg) = None ->
  gin (Gin.registrations router ++ [("GET", JSONPath cfg)])%list
      "GET" (UIPath cfg +:+ "/*any") = None ->
  swag_integration.SetupWithSwag gin router swagSpec (Some cfg) w
  = (Done (router
             ++ [ {| Gin.Method := "GET"; Gin.Path := JSONPath cfg;
                     Gin.HandlerFunc := SwagDocHandler swagSpec cfg |};
                  {| Gin.Method := "GET"; Gin.Path := UIPath cfg +:+ "/*any";
                     Gin.HandlerFunc := WrapHandler (Some (JSONPath cfg)) |}
                ])%list,
     {| SwagSpec := swagSpec; Heap := Heap w |}).
Proof.
  intros He H1 H2. unfold swag_integration.SetupWithSwag, GET.
  cbv beta iota zeta. rewrite He. cbn [negb bind]. rewrite H1.
  cbn [bind]. unfold Gin.registrations at 1. rewrite map_app.
  fold (Gin.registrations router). cbn [map Gin.Method Gin.Path].
  rewrite H2. now rewrite <- app_assoc.
Qed.

(** C10.  [Setup] of swagger.go on a nil configuration panics: [New]
    replaces nil by the defaults for the publisher only, and reading
    [config.Enabled] through the nil argument is a nil dereference, before
    any route is asked of gin.  [SetupWithSwag] on a nil configuration
    runs with the defaults and, where gin takes the two routes, registers
    both. *)
Theorem Setup_nil_config_panics
        (gin : list (string * string) -> string -> string -> option string)
        (router : list (Gin.RouteInfo HandlerFunc))
        (swagSpec : val) (w : World) :
  swagger_go.Setup gin router None = Panic nilDereference
  /\ config (swagger_go.New None) = DefaultConfig
  /\ (gin (Gin.registrations router) "GET" "/swagger.json" = None ->
      gin (Gin.registrations router ++ [("GET", "/swagger.json")])%list
          "GET" "/swagger/*any" = None ->
      swag_integration.SetupWithSwag gin router swagSpec None w
      = (Done
           (router
              ++ [ {| Gin.Method := "GET"; Gin.Path := "/swagger.json";
                      Gin.HandlerFunc :=
                        SwagDocHandler swagSpec DefaultConfig |};
                   {| Gin.Method := "GET"; Gin.Path := "/swagger/*any";
                      Gin.HandlerFunc :=
                        WrapHandler (Some "/swagger.json") |} ])%list,
         {| SwagSpec := swagSpec; Heap := Heap w |})).
Proof.
  split; [reflexivity |]. split; [reflexivity |].
  intros H1 H2.
  change (swag_integration.SetupWithSwag gin router swagSpec None w)
    with (swag_integration.SetupWithSwag gin router swagSpec
                                         (Some DefaultConfig) w).
  now rewrite (SetupWithSwag_enabled gin router swagSpec DefaultConfig w).
Qed.

(** On a new router [SetupWithSwag] with a nil configuration registers
    both routes. *)
Lemma Setup_nil_config_panics_witness :
  swag_integration.SetupWithSwag refuseRepeated [] docSpec None emptyWorld
  = (Done [ {| Gin.Method := "GET"; Gin.Path := "/swagger.json";
               Gin.HandlerFunc := SwagDocHandler docSpec DefaultConfig |};
            {| Gin.Method := "GET"; Gin.Path := "/swagger/*any";
               Gin.HandlerFunc := WrapHandler (Some "/swagger.json") |} ],
     {| SwagSpec := docSpec; Heap := ∅ |}).
Proof.
  destruct (Setup_nil_config_panics refuseRepeated [] docSpec emptyWorld)
    as (_ & _ & H).
  apply H; reflexivity.
Defined.

(* ===================================================================== *)
(** ** More on the origin resolver                                        *)
(* ===================================================================== *)

Lemma occursIn_empty (sub : string) : sub <> "" -> ~ occursIn sub "".
Proof.
  intros Hsub (a & b & H). destruct a as [|x a].
  - rewrite append_nil_l in H. destruct sub; [congruence | discriminate].
  - discriminate.
Qed.

(** A string with a colon splits at its first colon. *)
Lemma first_colon (s : string) :
  occursIn ":" s ->
  exists p r : string, s = p +:+ ":" +:+ r /\ ~ occursIn ":" p.
Proof.
  induction s as [|x s IH]; intros Hs.
  - exfalso. revert Hs. now apply occursIn_empty.
  - destruct (ascii_dec x ":"%char) as [-> | Hx].
    + exists "", s. split; [reflexivity |]. now apply occursIn_empty.
    + destruct Hs as (a & b & Hs). destruct a as [|y a].
      * rewrite append_nil_l in Hs. injection Hs as Hy _. congruence.
      * rewrite append_cons in Hs. injection Hs as <- Hs.
        destruct IH as (p & r & -> & Hp); [now exists a, b |].
        exists (String x p), r. split; [reflexivity |].
        intros (a' & b' & H'). destruct a' as [|z a'].
        -- rewrite append_nil_l in H'. injection H' as Hz _. congruence.
        -- rewrite append_cons in H'. injection H' as _ H'.
           apply Hp. now exists a', b'.
Qed.

Lemma endsIn_port_colon (host : string) :
  endsIn host ":80" \/ endsIn host ":443" -> occursIn ":" host.
Proof.
  intros [[p ->] | [p ->]].
  - exists p, "80". reflexivity.
  - exists p, "443". reflexivity.
Qed.

Lemma HasSuffix_port (host : string) :
  endsIn host ":80" \/ endsIn host ":443" ->
  GoStrings.HasSuffix host ":80" || GoStrings.HasSuffix host ":443" = true.
Proof.
  intros H. apply orb_true_iff.
  destruct H as [H | H]; [left | right]; now apply HasSuffix_endsIn.
Qed.

(** X1.  Where the request host decides and ends in [":80"] or [":443"],
    what [detectHost] returns is the text before the FIRST colon of the
    host: it contains no colon, and the host is that text, a colon and a
    rest. *)
Theorem detectHost_cut_at_first_colon (c : Gin.Context)
        (env : gmap string string) :
  forwardedHost c = "" -> requestHost c <> "" ->
  endsIn (requestHost c) ":80" \/ endsIn (requestHost c) ":443" ->
  ~ occursIn ":" (detectHost c env)
  /\ exists r : string, requestHost c = detectHost c env +:+ ":" +:+ r.
Proof.
  intros Hf Hh Hport.
  destruct (first_colon _ (endsIn_port_colon _ Hport)) as (p & r & Hhost & Hp).
  assert (E : detectHost c env = p).
  { rewrite detectHost_of_host by assumption.
    rewrite HasSuffix_port by assumption.
    unfold GoStrings.Split. rewrite Hhost.
    now rewrite Split_from_first_colon. }
  rewrite E. split; [exact Hp | now exists r].
Qed.

Lemma detectHost_cut_at_first_colon_witness :
  ~ occursIn ":" (detectHost reqIPv6 ∅)
  /\ exists r : string, requestHost reqIPv6 = detectHost reqIPv6 ∅ +:+ ":" +:+ r.
Proof.
  apply (detectHost_cut_at_first_colon reqIPv6 ∅).
  - reflexivity.
  - vm_compute. discriminate.
  - right. apply HasSuffix_endsIn. reflexivity.
Defined.

(** X2.  [detectHost] returns the empty string in one situation only: no
    forwarded host, and a request host that begins with a colon and ends
    in [":80"] or [":443"] (such as [":80"] itself).  In every other case
    the result is non-empty. *)
Theorem detectHost_empty_iff (c : Gin.Context) (env : gmap string string) :
  detectHost c env = ""
  <-> forwardedHost c = ""
      /\ (exists r : string, requestHost c = ":" +:+ r)
      /\ (endsIn (requestHost c) ":80" \/ endsIn (requestHost c) ":443").
Proof.
  split.
  - intros E.
    destruct (String.eqb_spec (forwardedHost c) "") as [Hf | Hf];
      [| rewrite detectHost_forwarded in E by assumption; congruence].
    split; [exact Hf |].
    destruct (String.eqb_spec (requestHost c) "") as [Hh | Hh].
    + exfalso. rewrite detectHost_of_env in E by assumption.
      repeat match type of E with
             | (if nonEmpty ?v then _ else _) = _ =>
                 let N := fresh "N" in
                 destruct (nonEmpty v) eqn:N;
                   [apply nonEmpty_true in N; congruence |]
             end.
      discriminate.
    + rewrite detectHost_of_host in E by assumption.
      destruct (GoStrings.HasSuffix (requestHost c) ":80"
                || GoStrings.HasSuffix (requestHost c) ":443") eqn:Hs;
        [| congruence].
      assert (Hport : endsIn (requestHost c) ":80"
                      \/ endsIn (requestHost c) ":443").
      { apply orb_true_iff in Hs.
        destruct Hs as [Hs | Hs]; [left | right]; now apply HasSuffix_endsIn. }
      split; [| exact Hport].
      destruct (requestHost c) as [|x s] eqn:Ehost; [congruence |].
      destruct (ascii_dec x ":"%char) as [-> | Hx]; [now exists s |].
      exfalso. unfold GoStrings.Split in E. rewrite Split_from_cons in E.
      assert (P : String.prefix ":" (String x s) = false).
      { destruct (String.prefix ":" (String x s)) eqn:P; [| reflexivity].
        apply prefix_colon in P. congruence. }
      rewrite P in E.
      destruct (Split_from_first_prefix s [x]) as (p & r & Hp & _).
      rewrite Hp in E. simpl in E. discriminate.
  - intros (Hf & (r & Hr) & Hport).
    assert (Hh : requestHost c <> "") by (rewrite Hr; discriminate).
    rewrite detectHost_of_host by assumption.
    rewrite HasSuffix_port by assumption.
    unfold GoStrings.Split. rewrite Hr.
    change (":" +:+ r) with (String ":" r). rewrite Split_from_cons.
    replace (String.prefix ":" (String ":" r)) with true
      by (symmetry; now apply prefix_colon).
    reflexivity.
Qed.

Lemma detectHost_empty_iff_witness :
  detectHost reqColonPort envApiHost = "" /\ detectHost reqLocal ∅ <> "".
Proof.
  split.
  - apply (detectHost_empty_iff reqColonPort envApiHost).
    split; [reflexivity |]. split; [now exists "80" |].
    left. apply HasSuffix_endsIn. reflexivity.
  - intros E. apply (detectHost_empty_iff reqLocal ∅) in E.
    destruct E as (_ & (r & Hr) & _). vm_compute in Hr. discriminate.
Defined.

(** X3.  [detectScheme] returns ["https"] or ["http"], except on a plain
    connection with a non-empty [X-Forwarded-Proto], whose first value is
    returned unchecked, whatever it is. *)
Theorem detectScheme_range (c : Gin.Context) (env : gmap string string) :
  detectScheme c env = "https" \/ detectScheme c env = "http"
  \/ (NetHttp.TLS (Gin.Request c) = None /\ forwardedProto c <> ""
      /\ detectScheme c env = forwardedProto c).
Proof.
  unfold detectScheme. fold (forwardedProto c) (requestHost c).
  destruct (NetHttp.TLS (Gin.Request c)); [now left |].
  destruct (nonEmpty (forwardedProto c)) eqn:N.
  - right. right. apply nonEmpty_true in N. auto.
  - destruct (GoStrings.Contains (requestHost c) ".railway.app"
              || GoStrings.Contains (requestHost c) ".up.railway.app");
      [now left |].
    destruct (String.eqb (GoOs.Getenv env "ENV") "production"
              || String.eqb (GoOs.Getenv env "ENV") "staging"); auto.
Qed.

(** X4.  Without a forwarded host and a request host, [detectHost] is the
    chain of [getEnvWithDefault] over the four variables, each falling
    back on the next and the last on ["localhost:8080"]; a variable set to
    the empty string counts as unset. *)
Theorem detectHost_env_chain (c : Gin.Context) (env : gmap string string) :
  forwardedHost c = "" -> requestHost c = "" ->
  detectHost c env =
  getEnvWithDefault env "RAILWAY_STATIC_URL"
    (getEnvWithDefault env "RAILWAY_PUBLIC_DOMAIN"
       (getEnvWithDefault env "API_HOST"
          (getEnvWithDefault env "API_URL" "localhost:8080")))
  /\ (forall key : string,
         env !! key = Some "" ->
         detectHost c (delete key env) = detectHost c env).
Proof.
  intros Hf Hh. split.
  - rewrite detectHost_of_env by assumption. reflexivity.
  - intros key Hkey. rewrite !detectHost_of_env by assumption.
    assert (G : forall k, GoOs.Getenv (delete key env) k = GoOs.Getenv env k).
    { intros k. unfold GoOs.Getenv.
      destruct (decide (key = k)) as [<- | Hne].
      - now rewrite lookup_delete_eq, Hkey.
      - now rewrite lookup_delete_ne. }
    now rewrite !G.
Qed.

Lemma detectHost_env_chain_witness :
  detectHost reqNoHost envApiHost
  = getEnvWithDefault envApiHost "RAILWAY_STATIC_URL"
      (getEnvWithDefault envApiHost "RAILWAY_PUBLIC_DOMAIN"
         (getEnvWithDefault envApiHost "API_HOST"
            (getEnvWithDefault envApiHost "API_URL" "localhost:8080"))).
Proof.
  destruct (detectHost_env_chain reqNoHost envApiHost) as (H & _);
    [reflexivity | reflexivity |].
  exact H.
Defined.

(** X5.  [isLocalhost] holds exactly of the hosts in which ["localhost"]
    or ["127.0.0.1"] occurs somewhere, so also of a host that merely
    contains one of them inside a longer name. *)
Theorem isLocalhost_occurs (host : string) :
  isLocalhost host = true
  <-> occursIn "localhost" host \/ occursIn "127.0.0.1" host.
Proof.
  unfold isLocalhost. now rewrite orb_true_iff, !Contains_occursIn.
Qed.

Lemma isLocalhost_occurs_witness :
  isLocalhost "notlocalhost.example.com" = true.
Proof.
  apply (isLocalhost_occurs "notlocalhost.example.com").
  left. apply Contains_occursIn. reflexivity.
Defined.

(** X6.  [detectScheme] and the [getScheme] of the Railway example agree
    on every request, except that [detectScheme] may answer ["https"]
    where [getScheme] answers its default ["http"]. *)
Theorem detectScheme_upgrades_getScheme (c : Gin.Context)
        (env : gmap string string) :
  detectScheme c env = getScheme c
  \/ (detectScheme c env = "https" /\ getScheme c = "http"
      /\ NetHttp.TLS (Gin.Request c) = None /\ forwardedProto c = "").
Proof.
  unfold detectScheme, getScheme. fold (forwardedProto c) (requestHost c).
  destruct (NetHttp.TLS (Gin.Request c)); [now left |].
  destruct (nonEmpty (forwardedProto c)) eqn:N; [now left |].
  apply nonEmpty_false in N.
  destruct (GoStrings.Contains (requestHost c) ".railway.app"
            || GoStrings.Contains (requestHost c) ".up.railway.app");
    [now right |].
  destruct (String.eqb (GoOs.Getenv env "ENV") "production"
            || String.eqb (GoOs.Getenv env "ENV") "staging");
    [now right | now left].
Qed.


(* ===================================================================== *)
(** ** More on the typed publisher                                        *)
(* ===================================================================== *)

Lemma nonEmpty_or3 (a b c : string) :
  nonEmpty a || nonEmpty b || nonEmpty c = false
  <-> a = "" /\ b = "" /\ c = "".
Proof.
  rewrite !orb_false_iff, !nonEmpty_false. tauto.
Qed.

(** X7.  The optional parts of the document [New] builds: there is a
    contact exactly when one of the three contact fields is non-empty, and
    it carries all three; there is a license exactly when the license name
    is non-empty, so that a license URL alone is dropped; the only
    security definition there can be is ["Bearer"], present exactly when
    bearer authentication is requested.  A nil configuration gives the
    document of the defaults. *)
Theorem New_optional_parts (cfg : Config) :
  let sp := spec (swagger_go.New (Some cfg)) in
  (Info.Contact (SwaggerSpec.Info sp) = None
   <-> ContactName cfg = "" /\ ContactEmail cfg = "" /\ ContactURL cfg = "")
  /\ (forall ct, Info.Contact (SwaggerSpec.Info sp) = Some ct ->
                 Contact.Name ct = ContactName cfg
                 /\ Contact.Email ct = ContactEmail cfg
                 /\ Contact.URL ct = ContactURL cfg)
  /\ (Info.License (SwaggerSpec.Info sp) = None <-> LicenseName cfg = "")
  /\ (forall k, is_Some (SwaggerSpec.SecurityDefinitions sp !! k)
                <-> k = "Bearer" /\ BearerAuth cfg = true)
  /\ swagger_go.New None = swagger_go.New (Some DefaultConfig).
Proof.
  cbv zeta. unfold swagger_go.New. simpl.
  split; [| split; [| split; [| split]]].
  - rewrite <- nonEmpty_or3.
    destruct (nonEmpty (ContactName cfg) || nonEmpty (ContactEmail cfg)
              || nonEmpty (ContactURL cfg)); split; congruence.
  - intros ct.
    destruct (nonEmpty (ContactName cfg) || nonEmpty (ContactEmail cfg)
              || nonEmpty (ContactURL cfg)); [| discriminate].
    intros [= <-]. auto.
  - rewrite <- nonEmpty_false.
    destruct (nonEmpty (LicenseName cfg)); split; congruence.
  - intros k. destruct (BearerAuth cfg).
    + rewrite lookup_singleton_is_Some.
      split; [intros <-; auto | intros [-> _]; reflexivity].
    + rewrite lookup_empty. split; [intros [? ?]; discriminate |].
      intros [_ ?]. discriminate.
  - reflexivity.
Qed.

Lemma New_optional_parts_witness :
  Info.License
    (SwaggerSpec.Info
       (spec (swagger_go.New
                (Some (WithLicense NewConfig "" "https://example.com/l")))))
  = None.
Proof.
  destruct (New_optional_parts
              (WithLicense NewConfig "" "https://example.com/l"))
    as (_ & _ & H & _).
  apply H. reflexivity.
Defined.

(** What one request leaves of the held document: the same document with
    a host and schemes of its own. *)
Lemma docHandler_spec_shape (s : Swagger) (c : Gin.Context)
      (env : gmap string string) :
  exists (h : string) (ss : list string),
    (swagger_go.docHandler s c env).1
    = {| config := config s;
         spec := swagger_go.setSchemes (swagger_go.setHost (spec s) h) ss |}.
Proof.
  unfold swagger_go.docHandler. simpl.
  destruct (AutoDetectHost (config s)); [eauto |].
  destruct (nonEmpty (Host (config s))).
  - destruct (0 <? length (Schemes (config s)))%nat; eauto.
  - exists (SwaggerSpec.Host (spec s)), (SwaggerSpec.Schemes (spec s)).
    now destruct (spec s).
Qed.

Lemma serveRequests_shape (reqs : list (Gin.Context * gmap string string))
      (s : Swagger) :
  exists (h : string) (ss : list string),
    serveRequests s reqs
    = {| config := config s;
         spec := swagger_go.setSchemes (swagger_go.setHost (spec s) h) ss |}.
Proof.
  revert s. induction reqs as [|[c env] reqs IH]; intros s.
  - exists (SwaggerSpec.Host (spec s)), (SwaggerSpec.Schemes (spec s)).
    simpl. now destruct s as [cfg []].
  - change (serveRequests s ((c, env) :: reqs))
      with (serveRequests (swagger_go.docHandler s c env).1 reqs).
    destruct (docHandler_spec_shape s c env) as (h & ss & ->).
    destruct (IH {| config := config s;
                    spec := swagger_go.setSchemes
                              (swagger_go.setHost (spec s) h) ss |})
      as (h' & ss' & ->).
    exists h', ss'. reflexivity.
Qed.

(** X8.  Whatever requests the typed publisher has served, its
    configuration and every field of its document other than the host and
    the schemes are as they were at the start. *)
Theorem serveRequests_keeps_document
        (reqs : list (Gin.Context * gmap string string)) (s : Swagger) :
  let s' := serveRequests s reqs in
  config s' = config s
  /\ SwaggerSpec.Swagger (spec s') = SwaggerSpec.Swagger (spec s)
  /\ SwaggerSpec.Info (spec s') = SwaggerSpec.Info (spec s)
  /\ SwaggerSpec.BasePath (spec s') = SwaggerSpec.BasePath (spec s)
  /\ SwaggerSpec.Paths (spec s') = SwaggerSpec.Paths (spec s)
  /\ SwaggerSpec.Definitions (spec s') = SwaggerSpec.Definitions (spec s)
  /\ SwaggerSpec.SecurityDefinitions (spec s')
     = SwaggerSpec.SecurityDefinitions (spec s).
Proof.
  cbv zeta. destruct (serveRequests_shape reqs s) as (h & ss & ->).
  repeat split.
Qed.

(** A publisher that serves neither detected nor manual values is not
    written at all. *)
Lemma docHandler_static (s : Swagger) (c : Gin.Context)
      (env : gmap string string) :
  AutoDetectHost (config s) = false -> Host (config s) = "" ->
  (swagger_go.docHandler s c env).1 = s.
Proof.
  intros Ha Hh. apply nonEmpty_false in Hh.
  unfold swagger_go.docHandler. rewrite Ha, Hh. now destruct s.
Qed.

Lemma serveRequests_static (reqs : list (Gin.Context * gmap string string))
      (s : Swagger) :
  AutoDetectHost (config s) = false -> Host (config s) = "" ->
  serveRequests s reqs = s.
Proof.
  intros Ha Hh. induction reqs as [|[c env] reqs IH]; [reflexivity |].
  change (serveRequests s ((c, env) :: reqs))
    with (serveRequests (swagger_go.docHandler s c env).1 reqs).
  now rewrite docHandler_static.
Qed.

(** X9.  On the typed publisher the reply to a request does not depend on
    the requests served before it: after any run of requests the reply is
    the one the publisher would have given at the start. *)
Theorem docHandler_reply_ignores_history
        (reqs : list (Gin.Context * gmap string string)) (s : Swagger)
        (c : Gin.Context) (env : gmap string string) :
  (swagger_go.docHandler (serveRequests s reqs) c env).2
  = (swagger_go.docHandler s c env).2.
Proof.
  destruct (AutoDetectHost (config s)) eqn:Ha.
  - destruct (serveRequests_shape reqs s) as (h & ss & ->).
    unfold swagger_go.docHandler. simpl. now rewrite Ha.
  - destruct (nonEmpty (Host (config s))) eqn:Hh.
    + destruct (serveRequests_shape reqs s) as (h & ss & ->).
      unfold swagger_go.docHandler. simpl. rewrite Ha, Hh.
      now destruct (0 <? length (Schemes (config s)))%nat.
    + apply nonEmpty_false in Hh. now rewrite serveRequests_static.
Qed.

(** X10.  With auto-detection enabled the held document always carries the
    origin of the LAST request served: after a run of requests ending in
    [c], [GetSpec] shows the host and the scheme detected for [c]. *)
Theorem serveRequests_last_origin
        (reqs : list (Gin.Context * gmap string string)) (s : Swagger)
        (c : Gin.Context) (env : gmap string string) :
  AutoDetectHost (config s) = true ->
  let s' := serveRequests s (reqs ++ [(c, env)]) in
  SwaggerSpec.Host (swagger_go.GetSpec s') = detectHost c env
  /\ SwaggerSpec.Schemes (swagger_go.GetSpec s') = [detectScheme c env].
Proof.
  intros Ha. cbv zeta.
  assert (E : serveRequests s (reqs ++ [(c, env)])
              = (swagger_go.docHandler (serveRequests s reqs) c env).1).
  { unfold serveRequests. now rewrite fold_left_app. }
  assert (Hc : config (serveRequests s reqs) = config s).
  { now destruct (serveRequests_shape reqs s) as (h & ss & ->). }
  rewrite E. unfold swagger_go.docHandler, swagger_go.GetSpec.
  rewrite Hc, Ha. split; reflexivity.
Qed.

Lemma serveRequests_last_origin_witness :
  SwaggerSpec.Host
    (swagger_go.GetSpec
       (serveRequests (swagger_go.New (Some NewConfig))
                      ([(reqLocal, ∅)] ++ [(reqForwarded, ∅)])))
  = detectHost reqForwarded ∅.
Proof.
  destruct (serveRequests_last_origin
              [(reqLocal, ∅)] (swagger_go.New (Some NewConfig))
              reqForwarded ∅ eq_refl) as (H & _).
  exact H.
Defined.

(** X11.  Paths and definitions handed to [SetPaths] and [SetDefinitions]
    are in the held document and in every later reply, whatever requests
    came in between; the two setters do not disturb each other or the rest
    of the document. *)
Theorem SetPaths_SetDefinitions_served
        (s : Swagger) (paths definitions : gmap string val)
        (reqs : list (Gin.Context * gmap string string))
        (c : Gin.Context) (env : gmap string string) :
  let s1 := SetDefinitions (SetPaths s paths) definitions in
  let r := (swagger_go.docHandler (serveRequests s1 reqs) c env).2 in
  SwaggerSpec.Paths (swagger_go.GetSpec s1) = paths
  /\ SwaggerSpec.Definitions (swagger_go.GetSpec s1) = definitions
  /\ SetPaths (SetDefinitions s definitions) paths = s1
  /\ SwaggerSpec.Info (spec s1) = SwaggerSpec.Info (spec s)
  /\ Gin.Code r = 200
  /\ SwaggerSpec.Paths (Gin.Obj r) = paths
  /\ SwaggerSpec.Definitions (Gin.Obj r) = definitions.
Proof.
  cbv zeta. rewrite docHandler_reply_ignores_history.
  split; [reflexivity |]. split; [reflexivity |]. split; [reflexivity |].
  split; [reflexivity |]. split; [reflexivity |].
  unfold swagger_go.docHandler. simpl.
  destruct (AutoDetectHost (config s)); [split; reflexivity |].
  destruct (nonEmpty (Host (config s))); [| split; reflexivity].
  destruct (0 <? length (Schemes (config s)))%nat; split; reflexivity.
Qed.


(* ===================================================================== *)
(** ** More on the generic publisher                                      *)
(* ===================================================================== *)

(** X12.  With auto-detection enabled every reply of the handler of
    [SetupWithSwag] carries the host and the single scheme detected for
    its own request, whatever host and schemes the held map has (the
    generated host annotation is overridden). *)
Theorem auto_detect_served (cfg : Config) (c : Gin.Context)
        (env : gmap string string) (l : positive)
        (h : gmap positive (gmap string val)) :
  AutoDetectHost cfg = true ->
  let r := (swag_integration.serveSwagDoc (VMap l) cfg c env h).1 in
  Gin.Obj r !! "host" = Some (VString (detectHost c env))
  /\ Gin.Obj r !! "schemes" = Some (VStrings [detectScheme c env]).
Proof.
  intros Ha. cbv zeta. rewrite serveSwagDoc_map. simpl.
  unfold dynamicSpecOf. rewrite Ha. split.
  - rewrite lookup_insert_ne by discriminate. apply lookup_insert_eq.
  - apply lookup_insert_eq.
Qed.

Lemma auto_detect_served_witness :
  Gin.Obj (swag_integration.serveSwagDoc docSpec DefaultConfig reqForwarded
                                         ∅ docHeap).1
  !! "host" = Some (VString (detectHost reqForwarded ∅)).
Proof.
  destruct (auto_detect_served DefaultConfig reqForwarded ∅ 1%positive
                               docHeap eq_refl) as (E & _).
  exact E.
Defined.

Lemma serveSwagDocs_cons (swagSpec : val) (cfg : Config)
      (c : Gin.Context) (env : gmap string string)
      (reqs : list (Gin.Context * gmap string string))
      (h : gmap positive (gmap string val)) :
  serveSwagDocs swagSpec cfg ((c, env) :: reqs) h
  = serveSwagDocs swagSpec cfg reqs
      (swag_integration.serveSwagDoc swagSpec cfg c env h).2.
Proof. reflexivity. Qed.

Lemma serveSwagDocs_frame (swagSpec : val) (cfg : Config)
      (reqs : list (Gin.Context * gmap string string))
      (h : gmap positive (gmap string val)) (l0 : positive) :
  l0 ∈ dom h -> serveSwagDocs swagSpec cfg reqs h !! l0 = h !! l0.
Proof.
  revert h. induction reqs as [|[c env] reqs IH]; intros h Hl0;
    [reflexivity |].
  rewrite serveSwagDocs_cons, IH.
  - now apply serveSwagDoc_frame.
  - apply elem_of_dom. rewrite serveSwagDoc_frame by assumption.
    now apply elem_of_dom.
Qed.

(** X13.  On the generic handler no request sees a trace of an earlier
    one: after any run of requests on a held map, every map that was in
    the heap at the start has the entries it had (the held one among
    them), and the reply to the next request is the reply it would have
    had at the start. *)
Theorem serveSwagDoc_ignores_history
        (l : positive) (cfg : Config)
        (reqs : list (Gin.Context * gmap string string))
        (c : Gin.Context) (env : gmap string string)
        (h : gmap positive (gmap string val)) :
  l ∈ dom h ->
  let h' := serveSwagDocs (VMap l) cfg reqs h in
  (forall l0, l0 ∈ dom h -> h' !! l0 = h !! l0)
  /\ (swag_integration.serveSwagDoc (VMap l) cfg c env h').1
     = (swag_integration.serveSwagDoc (VMap l) cfg c env h).1.
Proof.
  intros Hl. cbv zeta. split.
  - intros l0 Hl0. now apply serveSwagDocs_frame.
  - rewrite !serveSwagDoc_map. simpl. unfold mapOf.
    now rewrite serveSwagDocs_frame.
Qed.

Lemma serveSwagDoc_ignores_history_witness :
  (swag_integration.serveSwagDoc
     docSpec DefaultConfig reqLocal ∅
     (serveSwagDocs docSpec DefaultConfig
                    [(reqForwarded, ∅); (reqPort443, envApiHost)] docHeap)).1
  = (swag_integration.serveSwagDoc docSpec DefaultConfig reqLocal ∅
                                   docHeap).1.
Proof.
  destruct (serveSwagDoc_ignores_history
              1%positive DefaultConfig
              [(reqForwarded, ∅); (reqPort443, envApiHost)] reqLocal ∅
              docHeap) as (_ & H).
  - apply elem_of_dom. vm_compute. eauto.
  - exact H.
Defined.

(** X14.  The keys of a reply of the generic handler: no key of the held
    map is ever dropped, and the only keys that can be added are ["host"]
    and ["schemes"]; both are present whenever auto-detection is enabled or
    a manual host is set. *)
Theorem serveSwagDoc_keys (l : positive) (cfg : Config) (c : Gin.Context)
        (env : gmap string string) (h : gmap positive (gmap string val)) :
  let r := (swag_integration.serveSwagDoc (VMap l) cfg c env h).1 in
  dom (mapOf h l) ⊆ dom (Gin.Obj r)
  /\ dom (Gin.Obj r) ⊆ {[ "host"; "schemes" ]} ∪ dom (mapOf h l)
  /\ (AutoDetectHost cfg = true \/ Host cfg <> "" ->
      dom (Gin.Obj r) = {[ "host"; "schemes" ]} ∪ dom (mapOf h l)).
Proof.
  cbv zeta. rewrite serveSwagDoc_map. simpl. unfold dynamicSpecOf.
  destruct (AutoDetectHost cfg).
  - rewrite !dom_insert_L. split; [set_solver |]. split; [set_solver |].
    intros _. set_solver.
  - destruct (nonEmpty (Host cfg)) eqn:Hh.
    + rewrite !dom_insert_L. split; [set_solver |]. split; [set_solver |].
      intros _. set_solver.
    + apply nonEmpty_false in Hh. split; [set_solver |].
      split; [set_solver |]. intros [? | ?]; congruence.
Qed.

Lemma serveSwagDoc_keys_witness :
  dom (Gin.Obj (swag_integration.serveSwagDoc
                  (VMap 1%positive) manualConfig reqLocal ∅ ∅).1)
  = {[ "host"; "schemes" ]} ∪ dom (mapOf (∅ : gmap positive (gmap string val))
                                         1%positive).
Proof.
  destruct (serveSwagDoc_keys 1%positive manualConfig reqLocal ∅ ∅)
    as (_ & _ & H).
  apply H. right. vm_compute. discriminate.
Defined.


(* ===================================================================== *)
(** ** More on route registration                                         *)
(* ===================================================================== *)

Lemma registrations_snoc (router : list (Gin.RouteInfo HandlerFunc))
      (path : string) (handler : HandlerFunc) :
  Gin.registrations
    (router ++ [ {| Gin.Method := "GET"; Gin.Path := path;
                    Gin.HandlerFunc := handler |} ])%list
  = (Gin.registrations router ++ [("GET", path)])%list.
Proof. unfold Gin.registrations. now rewrite map_app. Qed.

(** X15.  A second call of [SetupWithSwag] on a router on which a first,
    enabled call has registered its two routes.  A disabled second call
    changes nothing: routes and [SwagSpec] stay those of the first call.
    An enabled second call sets the package variable [SwagSpec] to its own
    document before it registers anything: when gin refuses its JSON route
    (as it does when the path is the one of the first call) the call
    panics with [SwagSpec] already overwritten; when gin takes its two
    routes they are appended, and the JSON route of the first call stays
    at its place with the document and the configuration of the first
    call.  The heap is never touched. *)
Theorem SetupWithSwag_twice
        (gin : list (string * string) -> string -> string -> option string)
        (router : list (Gin.RouteInfo HandlerFunc))
        (spec1 spec2 : val) (cfg1 cfg2 : Config) (w : World) :
  Enabled cfg1 = true ->
  gin (Gin.registrations router) "GET" (JSONPath cfg1) = None ->
  gin (Gin.registrations router ++ [("GET", JSONPath cfg1)])%list
      "GET" (UIPath cfg1 +:+ "/*any") = None ->
  let first := {| Gin.Method := "GET"; Gin.Path := JSONPath cfg1;
                  Gin.HandlerFunc := SwagDocHandler spec1 cfg1 |} in
  let r1 := (router
               ++ [ first;
                    {| Gin.Method := "GET";
                       Gin.Path := UIPath cfg1 +:+ "/*any";
                       Gin.HandlerFunc := WrapHandler (Some (JSONPath cfg1))
                    |} ])%list in
  let w1 := {| SwagSpec := spec1; Heap := Heap w |} in
  let s2 := swag_integration.SetupWithSwag gin r1 spec2 (Some cfg2) w1 in
  swag_integration.SetupWithSwag gin router spec1 (Some cfg1) w
  = (Done r1, w1)
  /\ Heap s2.2 = Heap w
  /\ (Enabled cfg2 = false -> s2 = (Done r1, w1))
  /\ (Enabled cfg2 = true ->
      SwagSpec s2.2 = spec2
      /\ (forall msg,
             gin (Gin.registrations r1) "GET" (JSONPath cfg2) = Some msg ->
             s2.1 = Panic msg)
      /\ (gin (Gin.registrations r1) "GET" (JSONPath cfg2) = None ->
          gin (Gin.registrations r1 ++ [("GET", JSONPath cfg2)])%list
              "GET" (UIPath cfg2 +:+ "/*any") = None ->
          exists r2,
            s2.1 = Done r2
            /\ r2 !! length router = Some first
            /\ routeTable r2
               = (routeTable router
                    ++ [ ("GET", JSONPath cfg1);
                         ("GET", UIPath cfg1 +:+ "/*any");
                         ("GET", JSONPath cfg2);
                         ("GET", UIPath cfg2 +:+ "/*any") ])%list)).
Proof.
  intros He1 G1 G2. cbv zeta.
  split; [now apply SetupWithSwag_enabled |].
  destruct (Enabled cfg2) eqn:He2.
  - split; [| split; [discriminate |]].
    + unfold swag_integration.SetupWithSwag. cbv beta iota zeta.
      now rewrite He2.
    + intros _. split; [| split].
      * unfold swag_integration.SetupWithSwag. cbv beta iota zeta.
        now rewrite He2.
      * intros msg Hmsg. unfold swag_integration.SetupWithSwag, GET.
        cbv beta iota zeta. rewrite He2. cbn [negb fst]. now rewrite Hmsg.
      * intros H1 H2. eexists.
        rewrite (SetupWithSwag_enabled gin _ spec2 cfg2 _ He2 H1 H2).
        split; [reflexivity |]. split.
        -- rewrite <- !app_assoc. rewrite lookup_app_r by reflexivity.
           now rewrite Nat.sub_diag.
        -- unfold routeTable. rewrite !map_app. simpl.
           now rewrite <- app_assoc.
  - rewrite SetupWithSwag_disabled by assumption.
    split; [reflexivity |]. split; [reflexivity | discriminate].
Qed.

(** The defaults twice on a new router: the second call finds the path
    ["/swagger.json"] taken, panics, and has overwritten [SwagSpec]. *)
Lemma SetupWithSwag_twice_witness :
  let s1 := swag_integration.SetupWithSwag refuseRepeated [] docSpec
                                           (Some DefaultConfig) emptyWorld in
  exists r1,
    s1.1 = Done r1
    /\ swag_integration.SetupWithSwag refuseRepeated r1 (VString "other")
                                      (Some DefaultConfig) s1.2
       = (Panic "handlers are already registered for path '/swagger.json'",
          {| SwagSpec := VString "other"; Heap := ∅ |}).
Proof.
  cbv zeta.
  destruct (SetupWithSwag_twice refuseRepeated [] docSpec (VString "other")
                                DefaultConfig DefaultConfig emptyWorld
                                eq_refl eq_refl eq_refl)
    as (E1 & Hh & _ & H).
  rewrite E1. eexists. split; [reflexivity |].
  destruct (H eq_refl) as (Hs & Hp & _).
  apply injective_projections.
  - apply Hp. reflexivity.
  - cbn [snd]. reflexivity.
Defined.

(** X16.  For a configuration that is not nil, [Setup] of swagger.go and
    [SetupWithSwag] ask gin for the same routes in the same order and end
    alike: both register nothing when the service is disabled; otherwise
    both panic with the same message when gin refuses the JSON route or
    the UI route, and both return with the same methods and paths
    registered when gin takes them. *)
Theorem Setup_same_routes_as_SetupWithSwag
        (gin : list (string * string) -> string -> string -> option string)
        (router : list (Gin.RouteInfo HandlerFunc)) (cfg : Config)
        (swagSpec : val) (w : World) :
  mapResult routeTable (swagger_go.Setup gin router (Some cfg))
  = mapResult routeTable
      (swag_integration.SetupWithSwag gin router swagSpec (Some cfg) w).1.
Proof.
  unfold swagger_go.Setup, swag_integration.SetupWithSwag, GET.
  cbv beta iota zeta. cbn [deref bind].
  destruct (Enabled cfg); cbn [negb fst]; [| reflexivity].
  destruct (gin (Gin.registrations router) "GET" (JSONPath cfg));
    cbn [bind mapResult]; [reflexivity |].
  rewrite !registrations_snoc.
  destruct (gin (Gin.registrations router ++ [("GET", JSONPath cfg)])%list
                "GET" (UIPath cfg +:+ "/*any"));
    cbn [mapResult]; [reflexivity |].
  unfold routeTable. now rewrite !map_app.
Qed.

(** X17.  [SetupFromDocs] either returns an error and changes nothing, or
    goes on as [SetupWithSwag] does on the decoded document.  It returns
    [ErrNotSupported] when the argument has no [ReadDoc], and the
    decoder's error when the text does not decode; in both cases the
    router and the state are as before.  On a decoded document its router,
    its panic and its state are those of [SetupWithSwag], and the error
    it returns is nil. *)
Theorem SetupFromDocs_outcome
        (gin : list (string * string) -> string -> string -> option string)
        (Unmarshal : string -> gmap positive (gmap string val) ->
                     (val * gmap positive (gmap string val)) + error)
        (router : list (Gin.RouteInfo HandlerFunc))
        (info : swag_integration.SwaggerInfo) (config : option Config)
        (w : World) :
  let res := swag_integration.SetupFromDocs gin Unmarshal router info
                                            config w in
  (forall router' err,
      res.1 = Done (router', Some err) -> router' = router /\ res.2 = w)
  /\ (info = swag_integration.WithoutReadDoc ->
      res = (Done (router, Some swag_integration.ErrNotSupported), w))
  /\ (forall doc err,
         info = swag_integration.WithReadDoc doc ->
         Unmarshal doc (Heap w) = inr err ->
         res = (Done (router, Some err), w))
  /\ (forall doc v h',
         info = swag_integration.WithReadDoc doc ->
         Unmarshal doc (Heap w) = inl (v, h') ->
         let sw := swag_integration.SetupWithSwag
                     gin router v config
                     {| SwagSpec := SwagSpec w; Heap := h' |} in
         res = (mapResult (fun r => (r, None)) sw.1, sw.2)).
Proof.
  cbv zeta. unfold swag_integration.SetupFromDocs,
              swag_integration.LoadSwagDocs.
  destruct info as [doc |].
  - destruct (Unmarshal doc (Heap w)) as [[v h'] | e] eqn:E.
    + assert (S : swag_integration.SetupWithSwag
                    gin router v
                    (Some match config with
                          | Some config0 => config0
                          | None => DefaultConfig
                          end)
                    {| SwagSpec := SwagSpec w; Heap := h' |}
                  = swag_integration.SetupWithSwag
                      gin router v config
                      {| SwagSpec := SwagSpec w; Heap := h' |})
        by now destruct config.
      rewrite S.
      destruct (swag_integration.SetupWithSwag
                  gin router v config {| SwagSpec := SwagSpec w; Heap := h' |})
        as [[r | msg] w'] eqn:Esw; cbn [fst snd bind mapResult].
      * split; [intros ? ? [=] |]. split; [discriminate |].
        split; [intros ? ? [= <-]; rewrite E; discriminate |].
        intros doc' v' h'' [= <-]. rewrite E. intros [= <- <-].
        now rewrite Esw.
      * split; [discriminate |]. split; [discriminate |].
        split; [intros ? ? [= <-]; rewrite E; discriminate |].
        intros doc' v' h'' [= <-]. rewrite E. intros [= <- <-].
        now rewrite Esw.
    + cbn [fst snd]. split; [intros ? ? [= <- <-]; now split |].
      split; [discriminate |].
      split; [intros ? ? [= <-]; rewrite E; congruence |].
      intros doc' v' h'' [= <-]. rewrite E. discriminate.
  - cbn [fst snd]. split; [intros ? ? [= <- <-]; now split |].
    split; [reflexivity |]. split; discriminate.
Qed.

Lemma SetupFromDocs_outcome_witness :
  swag_integration.SetupFromDocs
    refuseRepeated literalUnmarshal enabledWorldRoutes
    (swag_integration.WithReadDoc "{swagger:") None
    {| SwagSpec := docSpec; Heap := docHeap |}
  = (Done (enabledWorldRoutes,
           Some "invalid character looking for beginning of value"),
     {| SwagSpec := docSpec; Heap := docHeap |}).
Proof.
  destruct (SetupFromDocs_outcome
              refuseRepeated literalUnmarshal enabledWorldRoutes
              (swag_integration.WithReadDoc "{swagger:") None
              {| SwagSpec := docSpec; Heap := docHeap |}) as (_ & _ & H & _).
  apply (H "{swagger:"); reflexivity.
Defined.

Lemma SetupFromDocs_decoded
      (gin : list (string * string) -> string -> string -> option string)
      (Unmarshal : string -> gmap positive (gmap string val) ->
                   (val * gmap positive (gmap string val)) + error)
      (router : list (Gin.RouteInfo HandlerFunc)) (doc : string)
      (cfg : Config) (w : World) (v : val)
      (h' : gmap positive (gmap string val)) :
  Unmarshal doc (Heap w) = inl (v, h') ->
  swag_integration.SetupFromDocs
    gin Unmarshal router (swag_integration.WithReadDoc doc) (Some cfg) w
  = (mapResult
       (fun r => (r, None))
       (swag_integration.SetupWithSwag
          gin router v (Some cfg) {| SwagSpec := SwagSpec w; Heap := h' |}).1,
     (swag_integration.SetupWithSwag
        gin router v (Some cfg) {| SwagSpec := SwagSpec w; Heap := h' |}).2).
Proof.
  intros E. unfold swag_integration.SetupFromDocs,
              swag_integration.LoadSwagDocs.
  rewrite E.
  now destruct (swag_integration.SetupWithSwag
                  gin router v (Some cfg)
                  {| SwagSpec := SwagSpec w; Heap := h' |}) as [[r | msg] w'].
Qed.

(** X18.  A text that decodes to something other than an object (a JSON
    null, string, number, boolean or array) passes the setup: under an
    enabled configuration whose two routes gin takes, [SetupFromDocs]
    returns no error and registers the JSON route over that value.  Every
    request on that route is then answered with status 500 and the error
    object, and the heap is left alone. *)
Theorem SetupFromDocs_non_object
        (gin : list (string * string) -> string -> string -> option string)
        (Unmarshal : string -> gmap positive (gmap string val) ->
                     (val * gmap positive (gmap string val)) + error)
        (router : list (Gin.RouteInfo HandlerFunc)) (doc : string)
        (cfg : Config) (w : World) (v : val)
        (h' : gmap positive (gmap string val)) :
  Unmarshal doc (Heap w) = inl (v, h') ->
  (forall l, v <> VMap l) ->
  Enabled cfg = true ->
  gin (Gin.registrations router) "GET" (JSONPath cfg) = None ->
  gin (Gin.registrations router ++ [("GET", JSONPath cfg)])%list
      "GET" (UIPath cfg +:+ "/*any") = None ->
  let res := swag_integration.SetupFromDocs
               gin Unmarshal router (swag_integration.WithReadDoc doc)
               (Some cfg) w in
  (exists router',
      res.1 = Done (router', None)
      /\ router' !! length router
         = Some {| Gin.Method := "GET"; Gin.Path := JSONPath cfg;
                   Gin.HandlerFunc := SwagDocHandler v cfg |})
  /\ (forall c env h,
         swag_integration.serveSwagDoc v cfg c env h
         = (Gin.JSON NetHttp.StatusInternalServerError
                     {[ "error" := VString "Invalid swagger spec" ]}, h)).
Proof.
  intros E Hv He G1 G2. cbv zeta.
  rewrite (SetupFromDocs_decoded gin Unmarshal router doc cfg w v h' E).
  rewrite (SetupWithSwag_enabled gin router v cfg _ He G1 G2).
  cbn [fst snd mapResult]. split.
  - eexists. split; [reflexivity |].
    rewrite lookup_app_r by reflexivity. now rewrite Nat.sub_diag.
  - intros c env h. now apply serveSwagDoc_not_map.
Qed.

Lemma SetupFromDocs_non_object_witness :
  (exists router',
      (swag_integration.SetupFromDocs
         refuseRepeated literalUnmarshal []
         (swag_integration.WithReadDoc "null")
         (Some DefaultConfig) emptyWorld).1 = Done (router', None))
  /\ Gin.Code (swag_integration.serveSwagDoc VNil DefaultConfig reqLocal ∅
                                             ∅).1 = 500.
Proof.
  destruct (SetupFromDocs_non_object
              refuseRepeated literalUnmarshal [] "null" DefaultConfig
              emptyWorld VNil ∅ eq_refl) as ((r & H1 & _) & H3);
    [discriminate | reflexivity | reflexivity | reflexivity |].
  split; [now exists r |]. now rewrite H3.
Defined.

(* ===================================================================== *)
(** ** The fluent configuration and its callers                           *)
(* ===================================================================== *)

Lemma chainConfig_snoc (calls : list ConfigCall) (call : ConfigCall)
      (c : Config) :
  chainConfig (calls ++ [call]) c = callConfig call (chainConfig calls c).
Proof. unfold chainConfig. now rewrite fold_left_app. Qed.

Lemma chainConfig_app (calls rest : list ConfigCall) (c : Config) :
  chainConfig (calls ++ rest) c = chainConfig rest (chainConfig calls c).
Proof. unfold chainConfig. now rewrite fold_left_app. Qed.

(** X19.  In a chain of setter calls each field belongs to its own setter:
    a chain without [WithEnabled] leaves [Enabled] as it was, and likewise
    [WithAutoDetectHost], [WithHost], [WithSchemes], [WithUIPath] and
    [WithJSONPath] for their fields; and the last call of a setter wins
    over the earlier ones. *)
Theorem chainConfig_fields (calls : list ConfigCall) (c : Config) :
  ((forall b, ~ In (CallWithEnabled b) calls) ->
   Enabled (chainConfig calls c) = Enabled c)
  /\ ((forall b, ~ In (CallWithAutoDetectHost b) calls) ->
      AutoDetectHost (chainConfig calls c) = AutoDetectHost c)
  /\ ((forall h, ~ In (CallWithHost h) calls) ->
      Host (chainConfig calls c) = Host c)
  /\ ((forall ss, ~ In (CallWithSchemes ss) calls) ->
      Schemes (chainConfig calls c) = Schemes c)
  /\ ((forall p, ~ In (CallWithUIPath p) calls) ->
      UIPath (chainConfig calls c) = UIPath c)
  /\ ((forall p, ~ In (CallWithJSONPath p) calls) ->
      JSONPath (chainConfig calls c) = JSONPath c)
  /\ (forall before after b,
         calls = (before ++ CallWithEnabled b :: after)%list ->
         (forall b', ~ In (CallWithEnabled b') after) ->
         Enabled (chainConfig calls c) = b)
  /\ (forall before after h,
         calls = (before ++ CallWithHost h :: after)%list ->
         (forall h', ~ In (CallWithHost h') after) ->
         Host (chainConfig calls c) = h).
Proof.
  assert (frame :
    forall calls c,
      ((forall b, ~ In (CallWithEnabled b) calls) ->
       Enabled (chainConfig calls c) = Enabled c)
      /\ ((forall b, ~ In (CallWithAutoDetectHost b) calls) ->
          AutoDetectHost (chainConfig calls c) = AutoDetectHost c)
      /\ ((forall h, ~ In (CallWithHost h) calls) ->
          Host (chainConfig calls c) = Host c)
      /\ ((forall ss, ~ In (CallWithSchemes ss) calls) ->
          Schemes (chainConfig calls c) = Schemes c)
      /\ ((forall p, ~ In (CallWithUIPath p) calls) ->
          UIPath (chainConfig calls c) = UIPath c)
      /\ ((forall p, ~ In (CallWithJSONPath p) calls) ->
          JSONPath (chainConfig calls c) = JSONPath c)).
  { clear. intros calls.
    induction calls as [|call calls IH]; intros c; [repeat split |].
    change (chainConfig (call :: calls) c)
      with (chainConfig calls (callConfig call c)).
    destruct (IH (callConfig call c)) as (I1 & I2 & I3 & I4 & I5 & I6).
    repeat split; intros H.
    - rewrite I1 by (intros b Hb; apply (H b); now right).
      destruct call; try reflexivity. exfalso. apply (H enabled). now left.
    - rewrite I2 by (intros b Hb; apply (H b); now right).
      destruct call; try reflexivity. exfalso. apply (H enabled). now left.
    - rewrite I3 by (intros b Hb; apply (H b); now right).
      destruct call; try reflexivity. exfalso. apply (H host). now left.
    - rewrite I4 by (intros b Hb; apply (H b); now right).
      destruct call; try reflexivity. exfalso. apply (H schemes). now left.
    - rewrite I5 by (intros b Hb; apply (H b); now right).
      destruct call; try reflexivity. exfalso. apply (H path). now left.
    - rewrite I6 by (intros b Hb; apply (H b); now right).
      destruct call; try reflexivity. exfalso. apply (H path). now left. }
  destruct (frame calls c) as (F1 & F2 & F3 & F4 & F5 & F6).
  split; [exact F1 |]. split; [exact F2 |]. split; [exact F3 |].
  split; [exact F4 |]. split; [exact F5 |]. split; [exact F6 |]. split.
  - intros before after b -> Hafter.
    rewrite chainConfig_app.
    change (chainConfig (CallWithEnabled b :: after) (chainConfig before c))
      with (chainConfig after (WithEnabled (chainConfig before c) b)).
    destruct (frame after (WithEnabled (chainConfig before c) b)) as (G & _).
    now rewrite G.
  - intros before after h -> Hafter.
    rewrite chainConfig_app.
    change (chainConfig (CallWithHost h :: after) (chainConfig before c))
      with (chainConfig after (WithHost (chainConfig before c) h)).
    destruct (frame after (WithHost (chainConfig before c) h))
      as (_ & _ & G & _).
    now rewrite G.
Qed.

Lemma chainConfig_fields_witness :
  Enabled (chainConfig [CallWithTitle "My API"; CallWithBearerAuth true]
                       NewConfig) = true
  /\ Host (chainConfig [CallWithHost "a.example.com"; CallWithVersion "2";
                        CallWithHost "b.example.com"; CallWithEnabled false]
                       NewConfig) = "b.example.com".
Proof.
  split.
  - destruct (chainConfig_fields
                [CallWithTitle "My API"; CallWithBearerAuth true] NewConfig)
      as (H & _).
    rewrite H; [reflexivity |].
    intros b [E | [E | []]]; discriminate.
  - destruct (chainConfig_fields
                [CallWithHost "a.example.com"; CallWithVersion "2";
                 CallWithHost "b.example.com"; CallWithEnabled false]
                NewConfig) as (_ & _ & _ & _ & _ & _ & _ & H).
    apply (H [CallWithHost "a.example.com"; CallWithVersion "2"]
             [CallWithEnabled false] "b.example.com"); [reflexivity |].
    intros h' [E | []]. discriminate.
Defined.

(** X20.  The Railway example: with ENV set to ["production"] its call of
    [Setup] registers no route at all and asks gin for none; with any
    other ENV value, unset and ["staging"] included, it asks for the JSON
    route ["/swagger.json"] and the UI route ["/swagger/*any"], which are
    registered after the routes already there when gin takes them, and it
    panics with gin's message when gin refuses the first. *)
Theorem railwaySetup_routes
        (gin : list (string * string) -> string -> string -> option string)
        (router : list (Gin.RouteInfo HandlerFunc))
        (environ : gmap string string) :
  (GoOs.Getenv environ "ENV" = "production" ->
   railwaySetup gin router environ = Done router)
  /\ (GoOs.Getenv environ "ENV" <> "production" ->
      (gin (Gin.registrations router) "GET" "/swagger.json" = None ->
       gin (Gin.registrations router ++ [("GET", "/swagger.json")])%list
           "GET" "/swagger/*any" = None ->
       exists router',
         railwaySetup gin router environ = Done router'
         /\ routeTable router'
            = (routeTable router
                 ++ [("GET", "/swagger.json"); ("GET", "/swagger/*any")])%list)
      /\ (forall msg,
             gin (Gin.registrations router) "GET" "/swagger.json" = Some msg ->
             railwaySetup gin router environ = Panic msg)).
Proof.
  unfold railwaySetup, swagger_go.Setup, railwaySwaggerConfig, GET.
  cbv beta iota zeta. cbn [deref bind].
  cbn [Enabled JSONPath UIPath WithContact WithBearerAuth WithEnabled
       WithAutoDetectHost WithBasePath WithVersion WithDescription WithTitle
       NewConfig].
  split.
  - intros ->. reflexivity.
  - intros H. apply String.eqb_neq in H. rewrite H. cbn [negb].
    change ("/swagger" +:+ "/*any") with "/swagger/*any".
    split.
    + intros G1 G2. rewrite G1. cbn [bind].
      rewrite registrations_snoc, G2.
      eexists. split; [reflexivity |].
      unfold routeTable. rewrite !map_app. simpl.
      now rewrite <- app_assoc.
    + intros msg G1. now rewrite G1.
Qed.

Lemma railwaySetup_routes_witness :
  railwaySetup refuseRepeated enabledWorldRoutes envProduction
  = Done enabledWorldRoutes
  /\ exists router',
      railwaySetup refuseRepeated enabledWorldRoutes envStaging = Done router'
      /\ routeTable router'
         = (routeTable enabledWorldRoutes
              ++ [("GET", "/swagger.json"); ("GET", "/swagger/*any")])%list.
Proof.
  split.
  - destruct (railwaySetup_routes refuseRepeated enabledWorldRoutes
                                  envProduction) as (H & _).
    apply H. reflexivity.
  - destruct (railwaySetup_routes refuseRepeated enabledWorldRoutes
                                  envStaging) as (_ & H).
    destruct H as (H & _); [vm_compute; discriminate |].
    apply H; reflexivity.
Defined.

(* ===================================================================== *)
(** ** Several forwarded hosts                                            *)
(* ===================================================================== *)

Lemma detectHost_ext (c1 c2 : Gin.Context) (env : gmap string string) :
  forwardedHost c1 = forwardedHost c2 -> requestHost c1 = requestHost c2 ->
  detectHost c1 env = detectHost c2 env.
Proof.
  intros Hf Hh. unfold detectHost.
  fold (forwardedHost c1) (forwardedHost c2) (requestHost c1)
       (requestHost c2).
  now rewrite Hf, Hh.
Qed.

(** X21.  Of several [X-Forwarded-Host] values only the first counts: when
    it is non-empty it is the resolved host, whatever follows it; when it
    is empty the header is taken as absent, even if a non-empty value
    follows, and resolution goes on as for the request without the
    header. *)
Theorem detectHost_first_forwarded_value
        (c : Gin.Context) (env : gmap string string) (vs : list string) :
  (forall v, v <> "" -> detectHost (withForwardedHost c (v :: vs)) env = v)
  /\ detectHost (withForwardedHost c ("" :: vs)) env
     = detectHost (withForwardedHost c []) env
  /\ (forwardedHost c = "" ->
      detectHost (withForwardedHost c ("" :: vs)) env = detectHost c env).
Proof.
  assert (F : forall vals,
             forwardedHost (withForwardedHost c vals)
             = match vals with v :: _ => v | [] => "" end).
  { intros vals. unfold forwardedHost, withForwardedHost, NetHttp.Get. simpl.
    now rewrite lookup_insert_eq. }
  split; [| split].
  - intros v Hv. rewrite detectHost_forwarded; rewrite F; [reflexivity | exact Hv].
  - apply detectHost_ext; [now rewrite !F | reflexivity].
  - intros Hf. apply detectHost_ext; [now rewrite F | reflexivity].
Qed.

Lemma detectHost_first_forwarded_value_witness :
  detectHost (withForwardedHost reqLocal ["a.example.com"; "b.example.com"])
             ∅ = "a.example.com"
  /\ detectHost (withForwardedHost reqLocal [""; "b.example.com"]) ∅
     = "localhost:8080".
Proof.
  destruct (detectHost_first_forwarded_value reqLocal ∅ ["b.example.com"])
    as (H1 & _ & H3).
  split.
  - apply H1. discriminate.
  - rewrite H3; reflexivity.
Defined.
